(** * Dr. HealBot API (src/app.py): a shallow embedding in Rocq

    Python [str] values are sequences of Unicode code points; they are
    modelled as [list Z].  Literals of the source are written as UTF-8
    Rocq strings and decoded by [u].  JSON-like Python values (the
    [Dict[str, Any]] bodies, the stored transcripts) are modelled by
    [json].  Exceptions are the [Err] case of [res].  Where the behaviour
    of the standard library depends on its version, the model follows
    CPython 3.11 on Linux. *)

From Stdlib Require Import ZArith List String Ascii Bool Lia.
Import ListNotations.
Open Scope Z_scope.

(* ------------------------------------------------------------------ *)
(** ** Python strings *)

Definition str := list Z.

(** Decoding of a UTF-8 byte sequence into code points. *)
Fixpoint utf8_decode (bs : list Z) : str :=
  match bs with
  | [] => []
  | b :: r =>
      if b <? 128 then b :: utf8_decode r
      else if b <? 224 then
        match r with
        | b1 :: r1 =>
            Z.lor (Z.shiftl (Z.land b 31) 6) (Z.land b1 63) :: utf8_decode r1
        | [] => []
        end
      else if b <? 240 then
        match r with
        | b1 :: b2 :: r2 =>
            Z.lor (Z.shiftl (Z.land b 15) 12)
              (Z.lor (Z.shiftl (Z.land b1 63) 6) (Z.land b2 63))
            :: utf8_decode r2
        | _ => []
        end
      else
        match r with
        | b1 :: b2 :: b3 :: r3 =>
            Z.lor (Z.shiftl (Z.land b 7) 18)
              (Z.lor (Z.shiftl (Z.land b1 63) 12)
                 (Z.lor (Z.shiftl (Z.land b2 63) 6) (Z.land b3 63)))
            :: utf8_decode r3
        | _ => []
        end
  end.

(** A source literal, written in UTF-8. *)
Definition u (s : string) : str :=
  utf8_decode (map (fun a => Z.of_nat (nat_of_ascii a)) (list_ascii_of_string s)).

Fixpoint str_eqb (s t : str) : bool :=
  match s, t with
  | [], [] => true
  | c :: s', d :: t' => (c =? d) && str_eqb s' t'
  | _, _ => false
  end.

Lemma str_eqb_eq s t : str_eqb s t = true <-> s = t.
Proof.
  revert t; induction s as [|c s IH]; intros [|d t]; simpl; split; intro H;
    try discriminate; try reflexivity.
  - apply andb_prop in H as [H1 H2]. apply Z.eqb_eq in H1. apply IH in H2.
    now subst.
  - injection H as -> ->. rewrite Z.eqb_refl. simpl. now apply IH.
Qed.

(** [str.isspace]: the code points Python strips by default. *)
Definition py_isspace (c : Z) : bool :=
  ((9 <=? c) && (c <=? 13)) || ((28 <=? c) && (c <=? 32)) || (c =? 133)
  || (c =? 160) || (c =? 5760) || ((8192 <=? c) && (c <=? 8202))
  || (c =? 8232) || (c =? 8233) || (c =? 8239) || (c =? 8287)
  || (c =? 12288).

Fixpoint lstrip (s : str) : str :=
  match s with
  | c :: s' => if py_isspace c then lstrip s' else s
  | [] => []
  end.

(** [str.strip()] *)
Definition strip (s : str) : str := rev (lstrip (rev (lstrip s))).

(** Decimal rendering of an integer, as [str(i)] / [f"{i}"]. *)
Fixpoint digits_of (fuel : nat) (n : Z) (acc : str) : str :=
  match fuel with
  | O => acc
  | S f =>
      let acc' := (48 + n mod 10) :: acc in
      if n <? 10 then acc' else digits_of f (n / 10) acc'
  end.

Definition z_to_str (z : Z) : str :=
  if z <? 0 then 45 :: digits_of 64 (- z) [] else digits_of 64 z [].

(** Substring test, used to observe what a rendered text mentions. *)
Fixpoint is_prefix (p s : str) : bool :=
  match p, s with
  | [], _ => true
  | c :: p', d :: s' => (c =? d) && is_prefix p' s'
  | _, [] => false
  end.

Fixpoint contains (s p : str) : bool :=
  is_prefix p s || match s with [] => false | _ :: s' => contains s' p end.

(* ------------------------------------------------------------------ *)
(** ** Exceptions *)

Inductive exn :=
| TypeError | AttributeError | KeyError | ValueError | OSError
| UnicodeEncodeError | JSONDecodeError | TimeoutExpired
| LangDetectException | ValidationError.

(** [str(e)]: only the class of the exception is kept. *)
Definition exn_message (e : exn) : str :=
  match e with
  | TypeError => u "TypeError" | AttributeError => u "AttributeError"
  | KeyError => u "KeyError" | ValueError => u "ValueError"
  | OSError => u "OSError" | UnicodeEncodeError => u "UnicodeEncodeError"
  | JSONDecodeError => u "JSONDecodeError"
  | TimeoutExpired => u "TimeoutExpired"
  | LangDetectException => u "LangDetectException"
  | ValidationError => u "ValidationError"
  end.

Inductive res (A : Type) := Ok (a : A) | Err (e : exn).
Arguments Ok {A} a.
Arguments Err {A} e.

Definition res_bind {A B} (r : res A) (k : A -> res B) : res B :=
  match r with Ok a => k a | Err e => Err e end.

Notation "x <- r ;; k" := (res_bind r (fun x => k))
  (at level 61, r at next level, right associativity).

Fixpoint res_mapM {A B} (f : A -> res B) (l : list A) : res (list B) :=
  match l with
  | [] => Ok []
  | a :: l' => b <- f a ;; bs <- res_mapM f l' ;; Ok (b :: bs)
  end.

(* ------------------------------------------------------------------ *)
(** ** JSON-like Python values *)

(** [None], [bool], [int], [str], [list] and [dict] (insertion ordered);
    floats are not modelled. *)
#[local] Set Warnings "-register-all".
Inductive json :=
| JNull
| JBool (b : bool)
| JInt (z : Z)
| JStr (s : str)
| JList (l : list json)
| JObj (kvs : list (str * json)).

Definition dict := list (str * json).

(** [d.get(k)] *)
Fixpoint dict_get (d : dict) (k : str) : option json :=
  match d with
  | [] => None
  | (k', v) :: d' => if str_eqb k k' then Some v else dict_get d' k
  end.

(** Python truth value, [bool(v)]. *)
Definition truthy (v : json) : bool :=
  match v with
  | JNull => false
  | JBool b => b
  | JInt z => negb (z =? 0)
  | JStr s => negb (str_eqb s [])
  | JList l => negb (match l with [] => true | _ => false end)
  | JObj kvs => negb (match kvs with [] => true | _ => false end)
  end.

(** [if d.get(k):] *)
Definition get_truthy (d : dict) (k : str) : option json :=
  match dict_get d k with
  | Some v => if truthy v then Some v else None
  | None => None
  end.

(** [for x in v:] *)
Definition py_iter (v : json) : res (list json) :=
  match v with
  | JList l => Ok l
  | JStr s => Ok (map (fun c => JStr [c]) s)
  | JObj kvs => Ok (map (fun kv => JStr (fst kv)) kvs)
  | _ => Err TypeError
  end.

(** [v[-n:]]: a dict raises [TypeError] (a slice is not hashable
    before CPython 3.12), as do [None], [bool] and [int]. *)
Definition py_last (n : nat) (v : json) : res json :=
  match v with
  | JList l => Ok (JList (skipn (List.length l - n) l))
  | JStr s => Ok (JStr (skipn (List.length s - n) s))
  | _ => Err TypeError
  end.

(* ------------------------------------------------------------------ *)
(** ** [detect_language] (app.py, lines 348-357) *)

(** The character class [[\u0600-\u06FF\u0750-\u077F\u08A0-\u08FF]]. *)
Definition is_arabic_char (c : Z) : bool :=
  ((1536 <=? c) && (c <=? 1791)) || ((1872 <=? c) && (c <=? 1919))
  || ((2208 <=? c) && (c <=? 2303)).

Section Detect.
(** [langdetect.detect]: the statistical detector, an external
    function that may raise. *)
Variable langdetect_detect : str -> res str.

Definition detect_language (text : str) : str :=
  if existsb is_arabic_char text then u "ar"
  else match langdetect_detect text with
       | Ok lang => if str_eqb lang (u "ar") then u "ar" else u "en"
       | Err _ => u "en"
       end.
End Detect.

(* ------------------------------------------------------------------ *)
(** ** Prompt fragments: [format_patient_history] (lines 96-175) and
    [format_biomarker_context] (lines 368-390) *)

Definition NL : str := [10].

(** ["=" * 50] *)
Definition RULE : str := repeat 61 50.

(** [d.get(k, default)] *)
Definition dict_get_default (d : dict) (k : str) (dflt : json) : json :=
  match dict_get d k with Some v => v | None => dflt end.

Section Render.
(** [f"{v}"] of a list or a dict (its [repr]); the rendering of the
    other values is written out in [py_format]. *)
Variable py_repr : json -> str.

Definition py_format (v : json) : str :=
  match v with
  | JNull => u "None"
  | JBool true => u "True"
  | JBool false => u "False"
  | JInt z => z_to_str z
  | JStr s => s
  | _ => py_repr v
  end.

(** [info = patient_data["personal_info"]] and its three lines. *)
Definition render_personal (lname lage lgender : str) (pd : dict)
  : res str :=
  match get_truthy pd (u "personal_info") with
  | None => Ok []
  | Some (JObj info) =>
      Ok (lname ++ py_format (dict_get_default info (u "name") (JStr (u "N/A"))) ++ NL
          ++ lage ++ py_format (dict_get_default info (u "age") (JStr (u "N/A"))) ++ NL
          ++ lgender ++ py_format (dict_get_default info (u "gender") (JStr (u "N/A"))) ++ NL)
  | Some _ => Err AttributeError
  end.

(** [context += f"{bullet}{x}\n"] for each [x] of a list. *)
Definition render_items (bullet : str) (items : list json) : str :=
  List.concat (map (fun x => bullet ++ py_format x ++ NL) items).

(** [if patient_data.get(key): context += "\n<header>\n"; for x in ...] *)
Definition render_list (header bullet key : str) (pd : dict) : res str :=
  match get_truthy pd key with
  | None => Ok []
  | Some v => items <- py_iter v ;; Ok (NL ++ header ++ NL ++ render_items bullet items)
  end.

(** Same, over [patient_data["previous_visits"][-n:]]. *)
Definition render_visits (header bullet : str) (n : nat) (pd : dict) : res str :=
  match get_truthy pd (u "previous_visits") with
  | None => Ok []
  | Some v =>
      w <- py_last n v ;; items <- py_iter w ;;
      Ok (NL ++ header ++ NL ++ render_items bullet items)
  end.

(** [for key, value in vitals.items(): context += f"   • {key}: {value}\n"] *)
Definition render_vitals (pd : dict) : res str :=
  match get_truthy pd (u "vital_signs") with
  | None => Ok []
  | Some (JObj vitals) =>
      Ok (NL ++ u "📊 LAST RECORDED VITALS:" ++ NL
          ++ List.concat (map (fun kv => u "   • " ++ fst kv ++ u ": "
                                    ++ py_format (snd kv) ++ NL) vitals))
  | Some _ => Err AttributeError
  end.

Definition patient_footer : str :=
  NL ++ RULE ++ NL
  ++ u "⚠️ INSTRUCTIONS: Always consider this patient's history when giving advice." ++ NL
  ++ u "   - Check allergies before recommending any medication" ++ NL
  ++ u "   - Consider existing conditions and current medications" ++ NL
  ++ u "   - Reference their history when relevant to build trust" ++ NL
  ++ RULE ++ NL.

Definition patient_header_ar : str :=
  NL ++ NL ++ RULE ++ NL
  ++ u "⚠️ معلومات المريض المهمة - يجب مراعاتها في كل رد:" ++ NL
  ++ RULE ++ NL.

Definition patient_header_en : str :=
  NL ++ NL ++ RULE ++ NL
  ++ u "⚠️ IMPORTANT PATIENT INFORMATION - Consider in EVERY response:" ++ NL
  ++ RULE ++ NL.

Definition format_patient_history (patient_data : dict) (language : str)
  : res str :=
  match patient_data with
  | [] => Ok []
  | _ =>
    if str_eqb language (u "ar") then
      p <- render_personal (u "👤 الاسم: ") (u "📅 العمر: ") (u "⚧ الجنس: ") patient_data ;;
      h <- render_list (u "📋 التاريخ الطبي:") (u "• ") (u "medical_history") patient_data ;;
      m <- render_list (u "💊 الأدوية الحالية:") (u "• ") (u "medications") patient_data ;;
      a <- render_list (u "⚠️ الحساسيات:") (u "• ") (u "allergies") patient_data ;;
      v <- render_visits (u "📅 الزيارات السابقة:") (u "• ") 3 patient_data ;;
      Ok (patient_header_ar ++ p ++ h ++ m ++ a ++ v ++ patient_footer)
    else
      p <- render_personal (u "👤 Name: ") (u "📅 Age: ") (u "⚧ Gender: ") patient_data ;;
      h <- render_list (u "🏥 KNOWN MEDICAL CONDITIONS (CRITICAL):") (u "   • ")
             (u "medical_history") patient_data ;;
      m <- render_list (u "💊 CURRENT MEDICATIONS (Check for interactions):") (u "   • ")
             (u "medications") patient_data ;;
      a <- render_list (u "🚨 ALLERGIES (NEVER recommend these):") (u "   • ")
             (u "allergies") patient_data ;;
      v <- render_visits (u "📋 RECENT VISIT HISTORY:") (u "   • ") 5 patient_data ;;
      s <- render_vitals patient_data ;;
      Ok (patient_header_en ++ p ++ h ++ m ++ a ++ v ++ s ++ patient_footer)
  end.

(** [for i, priority in enumerate(xs, 1): context += f"{i}. {priority}\n"] *)
Fixpoint render_numbered (i : Z) (items : list json) : str :=
  match items with
  | [] => []
  | x :: xs => z_to_str i ++ u ". " ++ py_format x ++ NL ++ render_numbered (i + 1) xs
  end.

Definition format_biomarker_context (report : json) (language : str) : res str :=
  if negb (truthy report) then Ok []
  else
    let '(context, title) :=
      if str_eqb language (u "ar")
      then (NL ++ NL ++ u "📊 معلومات تقرير المختبر:" ++ NL, u "🎯 الأولويات الصحية الرئيسية:")
      else (NL ++ NL ++ u "📊 LAB REPORT INFORMATION:" ++ NL, u "🎯 Top Health Priorities:") in
    match report with
    | JObj r =>
        match get_truthy r (u "executive_summary") with
        | None => Ok context
        | Some (JObj summary) =>
            match get_truthy summary (u "top_priorities") with
            | None => Ok context
            | Some ps =>
                items <- py_iter ps ;;
                Ok (context ++ title ++ NL ++ render_numbered 1 items)
            end
        | Some _ => Err AttributeError
        end
    | _ => Err AttributeError
    end.
End Render.

(* ------------------------------------------------------------------ *)
(** ** HTTP responses *)

Inductive response :=
| JSONResponse (status_code : Z) (body : json)
| StreamingResponse (content : list Z) (media_type : str) (headers : list (str * str)).

Definition error_response (code : Z) (msg : str) : response :=
  JSONResponse code (JObj [(u "error", JStr msg)]).

(* ------------------------------------------------------------------ *)
(** ** The chat endpoint (lines 395-453) *)

Record ChatMessage := mkChatMessage { role : str; text : str }.

Record ChatRequest := mkChatRequest {
  message : str;
  language : option str;
  chat_history : option (list ChatMessage);
  patient_data : option dict;
  biomarker_data : option dict;
  biomarker_analysis : option dict }.

(** One entry [{"role": ..., "parts": [{"text": ...}]}] of [contents]. *)
Record Content := mkContent { c_role : str; c_text : str }.

(** [x in ["en", "ar"]] *)
Definition is_en_or_ar (x : str) : bool :=
  str_eqb x (u "en") || str_eqb x (u "ar").

(** [if d:] for an optional dict. *)
Definition opt_dict_truthy (o : option dict) : bool :=
  match o with Some (_ :: _) => true | _ => false end.

Section Chat.
Variable langdetect_detect : str -> res str.
Variable py_repr : json -> str.
(** The two long literals [DOCTOR_SYSTEM_PROMPT_EN] and
    [DOCTOR_SYSTEM_PROMPT_AR] (lines 178-346); composition does not
    inspect their text. *)
Variables DOCTOR_SYSTEM_PROMPT_EN DOCTOR_SYSTEM_PROMPT_AR : str.
(** [biomarker.predict(BiomarkerRequest(data))] (keyword arguments from the dict), an external module. *)
Variable biomarker_predict : dict -> res json.
(** [genai.GenerativeModel(...).generate_content(contents).text] *)
Variable generate_content : list Content -> res str.

Definition chat_language (request : ChatRequest) : str :=
  match language request with
  | Some l =>
      if str_eqb l (u "auto") then detect_language langdetect_detect (message request)
      else if is_en_or_ar l then l else u "en"
  | None => u "en"
  end.

(** [call_biomarker_api]: [None] when the analysis raises, and when it
    returns [None] ([JNull]). *)
Definition call_biomarker_api (d : dict) : option json :=
  match biomarker_predict d with Ok JNull => None | Ok r => Some r | Err _ => None end.

Definition base_template (detected_lang : str) : str :=
  if str_eqb detected_lang (u "ar") then DOCTOR_SYSTEM_PROMPT_AR
  else DOCTOR_SYSTEM_PROMPT_EN.

(** Lines 406-423: the system prompt and the biomarker report used. *)
Definition build_system_prompt (request : ChatRequest) (detected_lang : str)
  : res (str * option json) :=
  let system_prompt := base_template detected_lang in
  sp1 <- (match patient_data request with
          | Some pd =>
              if opt_dict_truthy (Some pd) then
                patient_context <- format_patient_history py_repr pd detected_lang ;;
                Ok (system_prompt ++ patient_context)
              else Ok system_prompt
          | None => Ok system_prompt
          end) ;;
  let biomarker_report := option_map JObj (biomarker_analysis request) in
  let biomarker_report :=
    if negb (opt_dict_truthy (biomarker_analysis request))
       && opt_dict_truthy (biomarker_data request)
    then match biomarker_data request with
         | Some d => call_biomarker_api d
         | None => biomarker_report
         end
    else biomarker_report in
  match biomarker_report with
  | Some r =>
      if truthy r then
        biomarker_context <- format_biomarker_context py_repr r detected_lang ;;
        Ok (sp1 ++ biomarker_context, biomarker_report)
      else Ok (sp1, biomarker_report)
  | None => Ok (sp1, biomarker_report)
  end.

Definition history_turn (msg : ChatMessage) : Content :=
  mkContent (if str_eqb (role msg) (u "user") then u "user" else u "model") (text msg).

(** Lines 398-435: language, report and the [contents] handed to the
    model. *)
Definition chat_contents (request : ChatRequest)
  : res (str * option json * list Content) :=
  let detected_lang := chat_language request in
  spr <- build_system_prompt request detected_lang ;;
  let '(system_prompt, biomarker_report) := spr in
  let contents := [mkContent (u "user") system_prompt] in
  let contents :=
    match chat_history request with
    | Some h => contents ++ map history_turn h
    | None => contents
    end in
  Ok (detected_lang, biomarker_report,
      contents ++ [mkContent (u "user") (strip (message request))]).

Definition chat (request : ChatRequest) : response :=
  match chat_contents request with
  | Err e => error_response 500 (exn_message e)
  | Ok (detected_lang, biomarker_report, contents) =>
      match generate_content contents with
      | Err e => error_response 500 (exn_message e)
      | Ok t =>
          let reply_text := strip t in
          JSONResponse 200 (JObj [
            (u "reply", JStr reply_text);
            (u "detected_language", JStr detected_lang);
            (u "response_language", JStr (detect_language langdetect_detect reply_text));
            (u "has_patient_data",
              JBool (match patient_data request with Some _ => true | None => false end));
            (u "has_biomarker_report",
              JBool (match biomarker_report with Some _ => true | None => false end))])
      end
  end.
End Chat.

(* ------------------------------------------------------------------ *)
(** ** The TTS endpoint (lines 657-720) *)

Record TTSRequest := mkTTSRequest {
  tts_text : str;
  language_code : option str;
  voice : option str }.

(** One item of [communicate.stream()]. *)
Record TTSChunk := mkTTSChunk { chunk_type : str; chunk_data : list Z }.

(** [EDGE_TTS_VOICES.get(lang, EDGE_TTS_VOICES["en"])] *)
Definition default_voice (lang : str) : str :=
  if str_eqb lang (u "ar") then u "ar-SA-ZariyahNeural" else u "en-US-AriaNeural".

(** The character class of line 668, [[\u0600-\u06FF]]. *)
Definition is_tts_arabic_char (c : Z) : bool := (1536 <=? c) && (c <=? 1791).

Section TTS.
Variable langdetect_detect : str -> res str.
(** [edge_tts.Communicate(text, voice).stream()], collected. *)
Variable edge_tts_stream : str -> str -> res (list TTSChunk).

(** Lines 662-669: [detected_lang]. *)
Definition tts_language (req : TTSRequest) : str :=
  let detected_lang :=
    match language_code req with
    | Some l =>
        if str_eqb l (u "auto") then detect_language langdetect_detect (tts_text req)
        else if is_en_or_ar l then l else u "en"
    | None => u "en"
    end in
  if existsb is_tts_arabic_char (tts_text req) then u "ar" else detected_lang.

(** Line 672. *)
Definition tts_voice (req : TTSRequest) (detected_lang : str) : str :=
  match voice req with
  | Some ((_ :: _) as v) => v
  | _ => default_voice detected_lang
  end.

Definition audio_bytes (chunks : list TTSChunk) : list Z :=
  List.concat (map chunk_data
    (filter (fun ch => str_eqb (chunk_type ch) (u "audio")) chunks)).

Definition text_to_speech (req : TTSRequest) : response :=
  let detected_lang := tts_language req in
  let v := tts_voice req detected_lang in
  let tts_error msg :=
    JSONResponse 500 (JObj [(u "error", JStr msg); (u "type", JStr (u "tts_error"));
                            (u "details", JStr (u "Text-to-speech generation failed"))]) in
  match edge_tts_stream (strip (tts_text req)) v with
  | Err e => tts_error (exn_message e)
  | Ok chunks =>
      match audio_bytes chunks with
      | [] => tts_error (u "No audio data generated")
      | buf =>
          StreamingResponse buf (u "audio/mpeg")
            [(u "Content-Disposition", u "inline; filename=speech.mp3");
             (u "X-Language", detected_lang);
             (u "X-Voice", v);
             (u "Cache-Control", u "no-cache")]
      end
  end.
End TTS.

(* ------------------------------------------------------------------ *)
(** ** The STT endpoint (lines 589-652) *)

(** The process state the handler touches: the existing files, and its
    two locals read by the [finally] block. *)
Record stt_state := mkSttState {
  files : list str;
  tmp_input_path : option str;
  tmp_wav_path : option str }.

Definition M (A : Type) := stt_state -> stt_state * res A.

Definition ret {A} (a : A) : M A := fun s => (s, Ok a).
Definition raise {A} (e : exn) : M A := fun s => (s, Err e).
Definition lift {A} (r : res A) : M A := fun s => (s, r).
Definition mbind {A B} (m : M A) (k : A -> M B) : M B :=
  fun s => let '(s', r) := m s in
           match r with Ok a => k a s' | Err e => (s', Err e) end.

Notation "x <-- m ;;; k" := (mbind m (fun x => k))
  (at level 61, m at next level, right associativity).

Definition file_exists (fs : list str) (p : str) : bool := existsb (str_eqb p) fs.
Definition add_file (p : str) (fs : list str) : list str :=
  if file_exists fs p then fs else p :: fs.
Definition remove_file (p : str) (fs : list str) : list str :=
  filter (fun q => negb (str_eqb q p)) fs.

Definition create_file (p : str) : M unit :=
  fun s => (mkSttState (add_file p (files s)) (tmp_input_path s) (tmp_wav_path s), Ok tt).
Definition set_input_path (p : str) : M unit :=
  fun s => (mkSttState (files s) (Some p) (tmp_wav_path s), Ok tt).
Definition set_wav_path (p : str) : M unit :=
  fun s => (mkSttState (files s) (tmp_input_path s) (Some p), Ok tt).

Inductive vosk_model := vosk_model_en | vosk_model_ar.

(** How [subprocess.run(["ffmpeg", ...], timeout=30)] ends, and whether
    ffmpeg left a file at the output path. *)
Inductive ffmpeg_outcome :=
| FfmpegExited (returncode : Z) (writes_wav : bool)
| FfmpegTimeout (writes_wav : bool)
| FfmpegRaises (e : exn).

Record wav_info := mkWavInfo { nchannels : Z; sampwidth : Z; framerate : Z }.

(** What the outside world answers to each effect of one request. *)
Record stt_env := mkSttEnv {
  STT_AVAILABLE : bool;
  upload_read : res (list Z);            (* await file.read() *)
  temp_write : res unit;                 (* tmp_input.write(content) *)
  input_name : str;                      (* tmp_input.name *)
  wav_name : str;                        (* tempfile.mktemp(suffix=".wav") *)
  ffmpeg_run : ffmpeg_outcome;
  wave_open : res wav_info;              (* wave.open(tmp_wav_path, "rb") *)
  (* json.loads(recognizer.FinalResult()) after all frames were fed *)
  final_result : vosk_model -> res json }.

(** Lines 621-622. *)
Definition stt_detected_language (language : str) : str :=
  if negb (str_eqb language (u "auto")) then language else u "en".

Definition stt_model (detected_language : str) : vosk_model :=
  if str_eqb detected_language (u "ar") then vosk_model_ar else vosk_model_en.

(** [final_result.get("text", "").strip()] *)
Definition transcript_of (final : json) : res str :=
  match final with
  | JObj d =>
      match dict_get_default d (u "text") (JStr []) with
      | JStr t => Ok (strip t)
      | _ => Err AttributeError
      end
  | _ => Err AttributeError
  end.

(** The [try] block, lines 601-640. *)
Definition stt_body (env : stt_env) (language : str) : M response :=
  _ <-- create_file (input_name env) ;;;
  content <-- lift (upload_read env) ;;;
  _ <-- lift (temp_write env) ;;;
  _ <-- set_input_path (input_name env) ;;;
  _ <-- set_wav_path (wav_name env) ;;;
  match ffmpeg_run env with
  | FfmpegRaises e => raise e
  | FfmpegTimeout w =>
      _ <-- (if w then create_file (wav_name env) else ret tt) ;;;
      raise TimeoutExpired
  | FfmpegExited returncode w =>
      _ <-- (if w then create_file (wav_name env) else ret tt) ;;;
      if negb (returncode =? 0) then
        ret (error_response 500 (u "Audio conversion failed"))
      else
        wf <-- lift (wave_open env) ;;;
        if negb (nchannels wf =? 1) || negb (sampwidth wf =? 2) then
          ret (error_response 400 (u "Invalid WAV format"))
        else
          let detected_language := stt_detected_language language in
          let model := stt_model detected_language in
          final <-- lift (final_result env model) ;;;
          transcript <-- lift (transcript_of final) ;;;
          ret (JSONResponse 200 (JObj [
                 (u "transcript", JStr transcript);
                 (u "detected_language", JStr detected_language);
                 (u "status", JStr (match transcript with
                                    | [] => u "no_speech"
                                    | _ => u "success" end))]))
  end.

(** The [finally] block, lines 646-652. *)
Definition cleanup_path (p : option str) (fs : list str) : list str :=
  match p with
  | Some ((_ :: _) as path) => if file_exists fs path then remove_file path fs else fs
  | _ => fs
  end.

Definition cleanup (s : stt_state) : list str :=
  cleanup_path (tmp_wav_path s) (cleanup_path (tmp_input_path s) (files s)).

(** [speech_to_text]: the files left afterwards and the response. *)
Definition speech_to_text (env : stt_env) (language : str) (fs : list str)
  : list str * response :=
  if negb (STT_AVAILABLE env) then
    (fs, error_response 503 (u "Speech-to-text not available. Vosk models not found."))
  else
    let '(s, r) := stt_body env language (mkSttState fs None None) in
    let resp :=
      match r with
      | Ok resp => resp
      | Err TimeoutExpired => error_response 500 (u "Audio processing timeout")
      | Err e => error_response 500 (exn_message e)
      end in
    (cleanup s, resp).

(* ------------------------------------------------------------------ *)
(** ** Chat-history endpoints (lines 486-544) *)

(** A file of the patient-data folder: a JSON document, or text that
    [json.load] rejects (left behind by an interrupted [json.dump]). *)
Inductive file_content := Doc (d : json) | Garbled.

Definition store := list (str * file_content).

Fixpoint store_get (st : store) (p : str) : option file_content :=
  match st with
  | [] => None
  | (q, c) :: st' => if str_eqb p q then Some c else store_get st' p
  end.

Definition store_put (p : str) (c : file_content) (st : store) : store :=
  (p, c) :: filter (fun qc => negb (str_eqb (fst qc) p)) st.

Definition has_nul (p : str) : bool := existsb (Z.eqb 0) p.

(** [Path.exists()] (CPython 3.8-3.12): a path with an embedded NUL
    does not exist ([ValueError] is caught); [os_stat_error p] says that
    [os.stat(p)] fails with an error other than ENOENT, ENOTDIR, EBADF and
    ELOOP (ENAMETOOLONG, EACCES on a directory of the path, ...), which
    [exists()] lets through; otherwise the path exists when the file
    does. *)
Definition path_exists (os_stat_error : str -> bool) (st : store) (p : str) : res bool :=
  if has_nul p then Ok false
  else if os_stat_error p then Err OSError
  else Ok (match store_get st p with Some _ => true | None => false end).

(** The number of bytes of a code point in UTF-8. *)
Definition utf8_length (c : Z) : nat :=
  if c <? 128 then 1 else if c <? 2048 then 2 else if c <? 65536 then 3 else 4.

(** The components of a path, split at ['/']. *)
Fixpoint path_components (p : str) (cur : str) : list str :=
  match p with
  | [] => [rev cur]
  | c :: p' => if c =? 47 then rev cur :: path_components p' [] else path_components p' (c :: cur)
  end.

(** Linux's ENAMETOOLONG: a component longer than NAME_MAX (255 bytes)
    in a path whose directories exist. *)
Definition name_too_long (p : str) : bool :=
  existsb (fun comp => (255 <? fold_right (fun c n => utf8_length c + n) 0 comp)%nat)
    (path_components p []).

(** A lone surrogate cannot be encoded to UTF-8 by [json.dump]. *)
Definition str_encodable (s : str) : bool :=
  forallb (fun c => negb ((55296 <=? c) && (c <=? 57343))) s.

Fixpoint json_encodable (v : json) : bool :=
  match v with
  | JStr s => str_encodable s
  | JList l =>
      (fix go (l : list json) : bool :=
         match l with [] => true | x :: r => json_encodable x && go r end) l
  | JObj kvs =>
      (fix go (kvs : list (str * json)) : bool :=
         match kvs with
         | [] => true
         | (k, x) :: r => str_encodable k && json_encodable x && go r
         end) kvs
  | _ => true
  end.

(** [datetime.now()] and its [isoformat()]. *)
Record datetime := mkDatetime {
  year : Z; month : Z; day : Z; hour : Z; minute : Z; second : Z; microsecond : Z }.

Definition zpad (n : nat) (z : Z) : str :=
  let s := z_to_str z in repeat 48 (n - List.length s) ++ s.

Definition isoformat (t : datetime) : str :=
  zpad 4 (year t) ++ u "-" ++ zpad 2 (month t) ++ u "-" ++ zpad 2 (day t)
  ++ u "T" ++ zpad 2 (hour t) ++ u ":" ++ zpad 2 (minute t) ++ u ":" ++ zpad 2 (second t)
  ++ (if microsecond t =? 0 then [] else u "." ++ zpad 6 (microsecond t)).

Record SaveChatRequest := mkSaveChatRequest {
  patient_name : str;
  saved_history : list ChatMessage }.

Definition message_json (msg : ChatMessage) : json :=
  JObj [(u "role", JStr (role msg)); (u "text", JStr (text msg))].

Section ChatHistory.
Variable PATIENT_DATA_FOLDER : str.
(** The lookup errors of [os.stat], as in [path_exists]. *)
Variable os_stat_error : str -> bool.
(** Whether the operating system lets [open(path, 'w')] create the
    file of a path it can look up (an existing directory, permissions,
    free space). *)
Variable os_can_create : str -> bool.

(** [Path(PATIENT_DATA_FOLDER) / f"{patient_name}_chat.json"]: the store
    is keyed by this string.  pathlib and the kernel may resolve two such
    strings to one file ([./x] and [x], [d/../x], symbolic links); for
    names that are a single component (no ['/']) of a folder of regular
    files, distinct strings are distinct files. *)
Definition chat_file (name : str) : str :=
  PATIENT_DATA_FOLDER ++ u "/" ++ name ++ u "_chat.json".

(** [len(data.get('chat_history', []))] of the log line (line 504):
    [get] needs a dict and [len] a sized value. *)
Definition history_log_check (data : json) : res unit :=
  match data with
  | JObj d =>
      match dict_get_default d (u "chat_history") (JList []) with
      | JList _ | JStr _ | JObj _ => Ok tt
      | _ => Err TypeError
      end
  | _ => Err AttributeError
  end.

Definition get_chat_history (st : store) (name : str) : response :=
  let path := chat_file name in
  match path_exists os_stat_error st path with
  | Err e => error_response 500 (exn_message e)
  | Ok false =>
      JSONResponse 200 (JObj [(u "patient_name", JStr name);
                              (u "chat_history", JList []);
                              (u "message_count", JInt 0)])
  | Ok true =>
      match store_get st path with
      | Some (Doc data) =>
          match history_log_check data with
          | Ok _ => JSONResponse 200 data
          | Err e => error_response 500 (exn_message e)
          end
      | Some Garbled => error_response 500 (exn_message JSONDecodeError)
      | None => error_response 500 (exn_message OSError)
      end
  end.

Definition save_chat_history (st : store) (now : datetime) (request : SaveChatRequest)
  : store * response :=
  let path := chat_file (patient_name request) in
  let hist := saved_history request in
  let data := JObj [(u "patient_name", JStr (patient_name request));
                    (u "chat_history", JList (map message_json hist));
                    (u "message_count", JInt (Z.of_nat (List.length hist)));
                    (u "last_updated", JStr (isoformat now))] in
  if has_nul path then (st, error_response 500 (exn_message ValueError))
  else if os_stat_error path || negb (os_can_create path)
  then (st, error_response 500 (exn_message OSError))
  else if negb (json_encodable data) then
    (store_put path Garbled st, error_response 500 (exn_message UnicodeEncodeError))
  else
    (store_put path (Doc data) st,
     JSONResponse 200 (JObj [(u "success", JBool true);
                             (u "patient_name", JStr (patient_name request));
                             (u "message_count", JInt (Z.of_nat (List.length hist)));
                             (u "file", JStr path)])).
End ChatHistory.

Definition status_of (r : response) : Z :=
  match r with JSONResponse c _ => c | StreamingResponse _ _ _ => 200 end.

(* ------------------------------------------------------------------ *)
(** ** Patient files: [load_patient_data] (lines 79-94), [list_patients]
    (lines 458-471), [get_patient_data] (lines 473-481) and
    [delete_chat_history] (lines 546-560) *)

(** [s.endswith(suf)] *)
Definition ends_with (s suf : str) : bool := is_prefix (rev suf) (rev s).

(** The remainder of [s] after the prefix [p]. *)
Fixpoint strip_prefix (p s : str) : option str :=
  match p, s with
  | [], _ => Some s
  | c :: p', d :: s' => if c =? d then strip_prefix p' s' else None
  | _, [] => None
  end.

Fixpoint last_index_from (c : Z) (s : str) (i : nat) (acc : option nat) : option nat :=
  match s with
  | [] => acc
  | d :: s' => last_index_from c s' (S i) (if d =? c then Some i else acc)
  end.

(** [s.rfind(c)], [None] for [-1]. *)
Definition rfind (s : str) (c : Z) : option nat := last_index_from c s 0 None.

(** [PurePath.stem]: [name[:i]] with [i = name.rfind('.')] when
    [0 < i < len(name) - 1], else [name]. *)
Definition py_stem (name : str) : str :=
  match rfind name 46 with
  | Some i => if (0 <? i)%nat && (i <? List.length name - 1)%nat then firstn i name else name
  | None => name
  end.

(** The files of the folder: the store is the file system, and its
    order stands for the (unspecified) order of the directory listing. *)
Section PatientFiles.
Variable PATIENT_DATA_FOLDER : str.
Variable os_stat_error : str -> bool.

(** [Path(PATIENT_DATA_FOLDER) / f"{patient_name}.json"] *)
Definition patient_file (name : str) : str :=
  PATIENT_DATA_FOLDER ++ u "/" ++ name ++ u ".json".

(** [load_patient_data]; Python's [None] is [JNull].  [exists()] is
    called outside the [try], so its [OSError] propagates. *)
Definition load_patient_data (st : store) (patient_name : str) : res json :=
  let p := patient_file patient_name in
  ex <- path_exists os_stat_error st p ;;
  if negb ex then Ok JNull
  else match store_get st p with
       | Some (Doc data) => Ok data
       | _ => Ok JNull   (* [open] or [json.load] raised; the handler returns None *)
       end.

(** [Err e]: the exception leaves the endpoint, and the server answers
    500 (Internal Server Error). *)
Definition get_patient_data (st : store) (patient_name : str) : res response :=
  pd <- load_patient_data st patient_name ;;
  if negb (truthy pd)
  then Ok (error_response 404 (u "Patient " ++ patient_name ++ u " not found"))
  else Ok (JSONResponse 200 pd).

(** The name of a file that sits directly in the folder. *)
Definition folder_entry (key : str) : option str :=
  match strip_prefix (PATIENT_DATA_FOLDER ++ u "/") key with
  | Some ((_ :: _) as n) => if existsb (Z.eqb 47) n then None else Some n
  | _ => None
  end.

(** [Path(PATIENT_DATA_FOLDER).glob("*.json")] (pathlib's glob also
    matches names that start with a dot; it ignores directories it cannot
    read, so the [except] branch of [list_patients] is not reached). *)
Definition glob_json (st : store) : list str :=
  filter (fun n => ends_with n (u ".json"))
    (flat_map (fun kc => match folder_entry (fst kc) with Some n => [n] | None => [] end) st).

Definition list_patients (st : store) : response :=
  let patient_files := glob_json st in
  let patients :=
    map py_stem (filter (fun f => negb (ends_with (py_stem f) (u "_chat"))) patient_files) in
  JSONResponse 200 (JObj [(u "patients", JList (map JStr patients));
                          (u "count", JInt (Z.of_nat (List.length patients)));
                          (u "folder", JStr PATIENT_DATA_FOLDER)]).

(** [os.remove(path)] *)
Definition store_remove (p : str) (st : store) : store :=
  filter (fun qc => negb (str_eqb (fst qc) p)) st.

(** Whether the operating system lets [os.remove] delete the file. *)
Variable os_can_remove : str -> bool.

Definition delete_chat_history (st : store) (patient_name : str) : store * response :=
  let path := chat_file PATIENT_DATA_FOLDER patient_name in
  match path_exists os_stat_error st path with
  | Err e => (st, error_response 500 (exn_message e))
  | Ok true =>
      if os_can_remove path then
        (store_remove path st,
         JSONResponse 200 (JObj [(u "success", JBool true);
                                 (u "message", JStr (u "Chat history deleted for " ++ patient_name))]))
      else (st, error_response 500 (exn_message OSError))
  | Ok false => (st, JSONResponse 200 (JObj [(u "success", JBool true);
                                            (u "message", JStr (u "No chat history found"))]))
  end.
End PatientFiles.

(* ------------------------------------------------------------------ *)
(** ** [get_available_voices] (lines 724-765) *)

Definition EDGE_TTS_VOICES : dict :=
  [(u "en", JStr (u "en-US-AriaNeural")); (u "ar", JStr (u "ar-SA-ZariyahNeural"))].

Section Voices.
Variable py_repr : json -> str.

(** The entry appended for one voice [d] of locale [locale]. *)
Definition voice_entry (d : dict) (locale : json) : json :=
  let name := dict_get_default d (u "ShortName") (JStr []) in
  let gender := dict_get_default d (u "Gender") (JStr []) in
  JObj [(u "name", name); (u "locale", locale); (u "gender", gender);
        (u "display_name",
          JStr (py_format py_repr (dict_get_default d (u "LocalName") name)
                ++ u " (" ++ py_format py_repr gender ++ u ")"))].

(** The [for voice in voices] loop: [voice.get] on a value that is not a
    dict, or [locale.startswith] on a locale that is not a string,
    raises [AttributeError]. *)
Fixpoint classify_voices (voices : list json) (english arabic : list json)
  : res (list json * list json) :=
  match voices with
  | [] => Ok (english, arabic)
  | JObj d :: vs =>
      let locale := dict_get_default d (u "Locale") (JStr []) in
      match locale with
      | JStr loc =>
          if is_prefix (u "en-") loc
          then classify_voices vs (english ++ [voice_entry d locale]) arabic
          else if is_prefix (u "ar-") loc
          then classify_voices vs english (arabic ++ [voice_entry d locale])
          else classify_voices vs english arabic
      | _ => Err AttributeError
      end
  | _ :: _ => Err AttributeError
  end.

(** [list_voices] is [await edge_tts.list_voices()]. *)
Definition get_available_voices (list_voices : res (list json)) : response :=
  match list_voices with
  | Err e => error_response 500 (exn_message e)
  | Ok voices =>
      match classify_voices voices [] [] with
      | Err e => error_response 500 (exn_message e)
      | Ok (english, arabic) =>
          JSONResponse 200 (JObj [
            (u "default_voices", JObj EDGE_TTS_VOICES);
            (u "available_voices", JObj [(u "english", JList english); (u "arabic", JList arabic)]);
            (u "total_en", JInt (Z.of_nat (List.length english)));
            (u "total_ar", JInt (Z.of_nat (List.length arabic)))])
      end
  end.
End Voices.

(* ================================================================== *)
(** * Properties *)

Lemma res_bind_ok {A B} (r : res A) (k : A -> res B) (b : B) :
  res_bind r k = Ok b -> exists a, r = Ok a /\ k a = Ok b.
Proof. destruct r as [a|e]; simpl; intro H; [now exists a | discriminate]. Qed.

(** ** Language detection *)

(** C1: [detect_language] always answers [en] or [ar]; any character of
    the three Arabic ranges makes it answer [ar] whatever the statistical
    detector says; when the statistical detector runs and raises, it
    answers [en]. *)
Theorem detect_language_spec (langdetect_detect : str -> res str) (text : str) :
  (detect_language langdetect_detect text = u "en"
   \/ detect_language langdetect_detect text = u "ar")
  /\ (existsb is_arabic_char text = true ->
      detect_language langdetect_detect text = u "ar")
  /\ (forall e, existsb is_arabic_char text = false ->
      langdetect_detect text = Err e ->
      detect_language langdetect_detect text = u "en").
Proof.
  unfold detect_language.
  split; [|split].
  - destruct (existsb is_arabic_char text); [now right|].
    destruct (langdetect_detect text) as [lang|e]; [|now left].
    destruct (str_eqb lang (u "ar")); [now right | now left].
  - intro H; now rewrite H.
  - intros e H1 H2; now rewrite H1, H2.
Qed.

(** ** Chat: composition of the system prompt and of the turns *)

Definition with_patient_data (request : ChatRequest) (pd : dict) : ChatRequest :=
  mkChatRequest (message request) (language request) (chat_history request)
    (Some pd) (biomarker_data request) (biomarker_analysis request).

Definition with_biomarker_analysis (request : ChatRequest) (r : dict) : ChatRequest :=
  mkChatRequest (message request) (language request) (chat_history request)
    (patient_data request) (biomarker_data request) (Some r).

Section ChatProofs.
Variable langdetect_detect : str -> res str.
Variable py_repr : json -> str.
Variables DOCTOR_SYSTEM_PROMPT_EN DOCTOR_SYSTEM_PROMPT_AR : str.
Variable biomarker_predict : dict -> res json.

Let build := build_system_prompt py_repr DOCTOR_SYSTEM_PROMPT_EN
               DOCTOR_SYSTEM_PROMPT_AR biomarker_predict.
Let base := base_template DOCTOR_SYSTEM_PROMPT_EN DOCTOR_SYSTEM_PROMPT_AR.

(** The patient block appended for a request (lines 410-412). *)
Definition patient_block (request : ChatRequest) (lang : str) : res str :=
  match patient_data request with
  | Some pd =>
      if opt_dict_truthy (Some pd) then format_patient_history py_repr pd lang
      else Ok []
  | None => Ok []
  end.

(** The biomarker report used (lines 415-418). *)
Definition report_of (request : ChatRequest) : option json :=
  if negb (opt_dict_truthy (biomarker_analysis request))
     && opt_dict_truthy (biomarker_data request)
  then match biomarker_data request with
       | Some d => call_biomarker_api biomarker_predict d
       | None => option_map JObj (biomarker_analysis request)
       end
  else option_map JObj (biomarker_analysis request).

(** The biomarker block appended for a report (lines 421-423). *)
Definition biomarker_block (report : option json) (lang : str) : res str :=
  match report with
  | Some r => if truthy r then format_biomarker_context py_repr r lang else Ok []
  | None => Ok []
  end.

Lemma build_system_prompt_blocks (request : ChatRequest) (lang : str) :
  build request lang =
    (pb <- patient_block request lang ;;
     bb <- biomarker_block (report_of request) lang ;;
     Ok (base lang ++ pb ++ bb, report_of request)).
Proof.
  unfold build, build_system_prompt, patient_block, biomarker_block, report_of, base.
  destruct (patient_data request) as [[|kv pd]|]; cbn [opt_dict_truthy res_bind];
    [| destruct (format_patient_history py_repr (kv :: pd) lang) as [pc|e];
       cbn [res_bind]; [|reflexivity] |];
    (destruct (if negb _ && _ then _ else _) as [rep|]; cbn [res_bind];
     [|now rewrite ?app_nil_l, ?app_nil_r]);
    (destruct (truthy rep); cbn [res_bind]; [|now rewrite ?app_nil_l, ?app_nil_r]);
    destruct (format_biomarker_context py_repr rep lang); cbn [res_bind];
    now rewrite ?app_nil_l, ?app_assoc.
Qed.

Lemma build_system_prompt_ok (request : ChatRequest) (lang sp : str) (rep : option json) :
  build request lang = Ok (sp, rep) ->
  exists pb bb, patient_block request lang = Ok pb
    /\ biomarker_block (report_of request) lang = Ok bb
    /\ rep = report_of request /\ sp = base lang ++ pb ++ bb.
Proof.
  rewrite build_system_prompt_blocks. intro H.
  apply res_bind_ok in H as [pb [Hp H]].
  apply res_bind_ok in H as [bb [Hb H]].
  injection H as <- <-. now exists pb, bb.
Qed.

(** C3: the system prompt is the language's base template, then the
    patient block (empty unless a non-empty patient record is given),
    then the biomarker block (empty unless a report is available); adding
    a patient record only inserts its block after the template, and
    adding a report to a request that had none only appends its block. *)
Theorem system_prompt_append_only :
  (forall request lang sp rep,
      build request lang = Ok (sp, rep) ->
      exists pb bb,
        sp = base lang ++ pb ++ bb
        /\ patient_block request lang = Ok pb
        /\ (opt_dict_truthy (patient_data request) = false -> pb = [])
        /\ rep = report_of request
        /\ biomarker_block rep lang = Ok bb
        /\ (match rep with Some r => truthy r | None => false end = false -> bb = []))
  /\ (forall request pd lang sp rep sp' rep',
      patient_data request = None ->
      build request lang = Ok (sp, rep) ->
      build (with_patient_data request pd) lang = Ok (sp', rep') ->
      rep' = rep /\ exists pb bb, sp = base lang ++ bb /\ sp' = base lang ++ pb ++ bb)
  /\ (forall request r lang sp sp' rep',
      biomarker_analysis request = None ->
      build request lang = Ok (sp, None) ->
      build (with_biomarker_analysis request r) lang = Ok (sp', rep') ->
      exists bb, sp' = sp ++ bb).
Proof.
  split; [|split].
  - intros request lang sp rep H.
    destruct (build_system_prompt_ok _ _ _ _ H) as [pb [bb [Hp [Hb [-> ->]]]]].
    exists pb, bb. repeat split; auto.
    + unfold patient_block in Hp. intro Hf.
      destruct (patient_data request) as [pd|]; simpl in Hf.
      * destruct pd as [|kv pd]; [now injection Hp | discriminate Hf].
      * now injection Hp.
    + unfold biomarker_block in Hb. intro Hf.
      destruct (report_of request) as [r|]; [rewrite Hf in Hb|]; now injection Hb.
  - intros request pd lang sp rep sp' rep' Hnone H H'.
    destruct (build_system_prompt_ok _ _ _ _ H) as [pb [bb [Hp [Hb [-> ->]]]]].
    destruct (build_system_prompt_ok _ _ _ _ H') as [pb' [bb' [Hp' [Hb' [-> ->]]]]].
    assert (Hr : report_of (with_patient_data request pd) = report_of request)
      by reflexivity.
    rewrite Hr in Hb' |- *. rewrite Hb in Hb'. injection Hb' as <-.
    unfold patient_block in Hp. rewrite Hnone in Hp. injection Hp as <-.
    split; [reflexivity|]. now exists pb', bb.
  - intros request r lang sp sp' rep' Hnone H H'.
    destruct (build_system_prompt_ok _ _ _ _ H) as [pb [bb [Hp [Hb [Hrep ->]]]]].
    destruct (build_system_prompt_ok _ _ _ _ H') as [pb' [bb' [Hp' [Hb' [_ ->]]]]].
    assert (Hpp : patient_block (with_biomarker_analysis request r) lang
                  = patient_block request lang) by reflexivity.
    rewrite Hpp, Hp in Hp'. injection Hp' as <-.
    rewrite <- Hrep in Hb. injection Hb as <-.
    exists bb'. now rewrite app_nil_r, !app_assoc.
Qed.

(** C2: the turns handed to the model are the system prompt as a user
    turn, every history turn in order with its role mapped, and the
    stripped message as the last user turn. *)
Theorem chat_contents_turns (request : ChatRequest) (lang : str)
    (rep : option json) (contents : list Content) :
  chat_contents langdetect_detect py_repr DOCTOR_SYSTEM_PROMPT_EN
    DOCTOR_SYSTEM_PROMPT_AR biomarker_predict request = Ok (lang, rep, contents) ->
  lang = chat_language langdetect_detect request
  /\ exists system_prompt,
       build request lang = Ok (system_prompt, rep)
       /\ contents =
            mkContent (u "user") system_prompt
            :: map history_turn (match chat_history request with
                                 | Some h => h | None => [] end)
            ++ [mkContent (u "user") (strip (message request))].
Proof.
  unfold chat_contents. intro H.
  apply res_bind_ok in H as [[sp rep0] [Hb H]].
  injection H as <- <- <-.
  split; [reflexivity|]. exists sp. split; [exact Hb|].
  destruct (chat_history request); reflexivity.
Qed.
End ChatProofs.

(** ** Patient block *)

(** A record with vital signs only. *)
Definition vitals_only_record : dict :=
  [(u "vital_signs", JObj [(u "heart_rate", JInt 72); (u "blood_pressure", JStr (u "120/80"))])].

(** C5: for the record [{"vital_signs": {"heart_rate": 72, ...}}] the
    English block lists [heart_rate], the Arabic block does not mention
    the vital signs at all. *)
Theorem format_patient_history_ar_drops_vitals (py_repr : json -> str) :
  (exists s, format_patient_history py_repr vitals_only_record (u "ar") = Ok s
             /\ contains s (u "heart_rate") = false
             /\ contains s (u "120/80") = false)
  /\ (exists s, format_patient_history py_repr vitals_only_record (u "en") = Ok s
                /\ contains s (u "   • heart_rate: 72") = true
                /\ contains s (u "   • blood_pressure: 120/80") = true).
Proof.
  split; eexists; (split; [reflexivity|]); split; vm_compute; reflexivity.
Qed.

(** ** Text to speech *)

(** Any character of [؀-ۿ] forces [ar], whatever was requested. *)
Lemma tts_language_basic_arabic (langdetect_detect : str -> res str) (req : TTSRequest) :
  existsb is_tts_arabic_char (tts_text req) = true ->
  tts_language langdetect_detect req = u "ar".
Proof. unfold tts_language. intro H. now rewrite H. Qed.

(** Response metadata carry the resolved language. *)
Lemma text_to_speech_language (langdetect_detect : str -> res str)
    (edge_tts_stream : str -> str -> res (list TTSChunk)) (req : TTSRequest)
    (buf : list Z) (mt : str) (headers : list (str * str)) :
  text_to_speech langdetect_detect edge_tts_stream req = StreamingResponse buf mt headers ->
  In (u "X-Language", tts_language langdetect_detect req) headers.
Proof.
  unfold text_to_speech.
  destruct (edge_tts_stream _ _) as [chunks|e]; [|discriminate].
  destruct (audio_bytes chunks) as [|b bs]; [discriminate|].
  intro H. injection H as _ _ <-. simpl. auto.
Qed.

(** The text ["ݐ"] (U+0750, ARABIC LETTER BEH WITH THREE DOTS
    HORIZONTALLY BELOW) with [language_code = "en"]. *)
Definition tts_req_u0750 : TTSRequest := mkTTSRequest [1872] (Some (u "en")) None.

(** C4: U+0750 is in the Arabic ranges of [detect_language], yet with an
    explicit [en] the TTS endpoint resolves, and reports, [en]. *)
Theorem tts_language_u0750_stays_en (langdetect_detect : str -> res str) :
  existsb is_arabic_char (tts_text tts_req_u0750) = true
  /\ tts_language langdetect_detect tts_req_u0750 = u "en"
  /\ text_to_speech langdetect_detect
       (fun _ _ => Ok [mkTTSChunk (u "audio") [255; 251]]) tts_req_u0750
     = StreamingResponse [255; 251] (u "audio/mpeg")
         [(u "Content-Disposition", u "inline; filename=speech.mp3");
          (u "X-Language", u "en");
          (u "X-Voice", u "en-US-AriaNeural");
          (u "Cache-Control", u "no-cache")].
Proof. split; [|split]; vm_compute; reflexivity. Qed.

(** ** Speech to text *)

(** The body that [speech_to_text] returns once recognition ran. *)
Definition transcript_response (transcript detected_language : str) : response :=
  JSONResponse 200 (JObj [
    (u "transcript", JStr transcript);
    (u "detected_language", JStr detected_language);
    (u "status", JStr (match transcript with [] => u "no_speech" | _ => u "success" end))]).

Lemma speech_to_text_recognized (env : stt_env) (language : str) (fs : list str)
    (content : list Z) (w : bool) (wf : wav_info) (d : dict) (raw : str) :
  STT_AVAILABLE env = true ->
  upload_read env = Ok content ->
  temp_write env = Ok tt ->
  ffmpeg_run env = FfmpegExited 0 w ->
  wave_open env = Ok wf -> nchannels wf = 1 -> sampwidth wf = 2 ->
  final_result env (stt_model (stt_detected_language language)) = Ok (JObj d) ->
  dict_get_default d (u "text") (JStr []) = JStr raw ->
  snd (speech_to_text env language fs)
  = transcript_response (strip raw) (stt_detected_language language).
Proof.
  intros Ha Hr Hw Hf Ho Hc Hs Hfin Ht.
  unfold speech_to_text. rewrite Ha. cbn [negb].
  unfold stt_body, mbind, create_file, lift, set_input_path, set_wav_path.
  rewrite Hr, Hw, Hf, Ho, Hc, Hs.
  destruct w; cbn -[u stt_model stt_detected_language cleanup];
    rewrite Hfin; unfold transcript_of; rewrite Ht; reflexivity.
Qed.

(** C6: once recognition ran, an empty stripped transcript gives a 200
    response with status [no_speech] and an empty transcript, a non-empty
    one a 200 response with status [success]. *)
Theorem stt_no_speech_status (env : stt_env) (language : str) (fs : list str)
    (content : list Z) (w : bool) (wf : wav_info) (d : dict) (raw : str) :
  STT_AVAILABLE env = true ->
  upload_read env = Ok content ->
  temp_write env = Ok tt ->
  ffmpeg_run env = FfmpegExited 0 w ->
  wave_open env = Ok wf -> nchannels wf = 1 -> sampwidth wf = 2 ->
  final_result env (stt_model (stt_detected_language language)) = Ok (JObj d) ->
  dict_get_default d (u "text") (JStr []) = JStr raw ->
  (strip raw = [] ->
   snd (speech_to_text env language fs)
   = JSONResponse 200 (JObj [(u "transcript", JStr []);
                             (u "detected_language", JStr (stt_detected_language language));
                             (u "status", JStr (u "no_speech"))]))
  /\ (strip raw <> [] ->
      snd (speech_to_text env language fs)
      = JSONResponse 200 (JObj [(u "transcript", JStr (strip raw));
                                (u "detected_language", JStr (stt_detected_language language));
                                (u "status", JStr (u "success"))])).
Proof.
  intros Ha Hr Hw Hf Ho Hc Hs Hfin Ht.
  rewrite (speech_to_text_recognized env language fs content w wf d raw
             Ha Hr Hw Hf Ho Hc Hs Hfin Ht).
  unfold transcript_response.
  split; intro E.
  - now rewrite E.
  - destruct (strip raw); [contradiction | reflexivity].
Qed.

(** An upload whose bytes cannot be written to the temporary file
    ([tmp_input.write] raises, e.g. [ENOSPC] on a large upload). *)
Definition stt_env_write_fails : stt_env :=
  mkSttEnv true (Ok [26; 69; 223; 163]) (Err OSError)
    (u "/tmp/tmpk3j9x2.webm") (u "/tmp/tmpq81mzd.wav")
    (FfmpegExited 0 true) (Ok (mkWavInfo 1 2 16000))
    (fun _ => Ok (JObj [(u "text", JStr (u "hello"))])).

(** C7: when writing the upload raises, the temporary [.webm] file that
    [NamedTemporaryFile(delete=False)] created is still there after the
    handler returned: [tmp_input_path] was never assigned. *)
Theorem stt_write_failure_leaks_input :
  speech_to_text stt_env_write_fails (u "auto") []
  = ([u "/tmp/tmpk3j9x2.webm"], error_response 500 (exn_message OSError)).
Proof. vm_compute. reflexivity. Qed.

Lemma In_remove_file x p fs : In x (remove_file p fs) -> x <> p /\ In x fs.
Proof.
  unfold remove_file. intro H. apply filter_In in H as [H1 H2].
  split; [|exact H1]. intros ->.
  rewrite (proj2 (str_eqb_eq p p) eq_refl) in H2. discriminate.
Qed.

Lemma In_cleanup_path x p fs : In x (cleanup_path p fs) -> In x fs.
Proof.
  unfold cleanup_path. destruct p as [[|c p]|]; auto.
  destruct (file_exists fs (c :: p)); auto.
  intro H. now apply In_remove_file in H.
Qed.

Lemma In_cleanup_path_some x p fs :
  p <> [] -> In x (cleanup_path (Some p) fs) -> x <> p.
Proof.
  unfold cleanup_path. intros Hp H. destruct p as [|c p]; [contradiction|].
  destruct (file_exists fs (c :: p)) eqn:E.
  - now apply In_remove_file in H.
  - intros ->. unfold file_exists in E.
    assert (existsb (str_eqb (c :: p)) fs = true) as T.
    { apply existsb_exists. exists (c :: p). split; [exact H|].
      now apply str_eqb_eq. }
    congruence.
Qed.

Lemma stt_body_paths (env : stt_env) (language : str) (s : stt_state) (content : list Z) :
  upload_read env = Ok content -> temp_write env = Ok tt ->
  tmp_input_path (fst (stt_body env language s)) = Some (input_name env)
  /\ tmp_wav_path (fst (stt_body env language s)) = Some (wav_name env).
Proof.
  intros Hr Hw.
  unfold stt_body, mbind, create_file, lift, set_input_path, set_wav_path, ret, raise.
  rewrite Hr, Hw.
  destruct (ffmpeg_run env) as [rc [|]|[|]|e];
    cbn -[u stt_model stt_detected_language]; auto;
    destruct (negb (rc =? 0)); cbn -[u stt_model stt_detected_language]; auto;
    destruct (wave_open env) as [wf|e]; cbn -[u stt_model stt_detected_language]; auto;
    destruct (negb (nchannels wf =? 1) || negb (sampwidth wf =? 2));
    cbn -[u stt_model stt_detected_language]; auto;
    destruct (final_result env _) as [fin|e]; cbn -[u stt_model stt_detected_language]; auto;
    destruct (transcript_of fin); cbn -[u stt_model stt_detected_language]; auto.
Qed.

(** Once the upload is on disk, no temporary file survives the handler. *)
Lemma stt_no_temp_file_left (env : stt_env) (language : str) (fs : list str)
    (content : list Z) :
  STT_AVAILABLE env = true ->
  upload_read env = Ok content -> temp_write env = Ok tt ->
  input_name env <> [] -> wav_name env <> [] ->
  ~ In (input_name env) (fst (speech_to_text env language fs))
  /\ ~ In (wav_name env) (fst (speech_to_text env language fs)).
Proof.
  intros Ha Hr Hw Hi Hv.
  destruct (stt_body_paths env language (mkSttState fs None None) content Hr Hw)
    as [Hpi Hpw].
  unfold speech_to_text. rewrite Ha. cbn [negb].
  destruct (stt_body env language (mkSttState fs None None)) as [s r].
  simpl in Hpi, Hpw |- *. unfold cleanup. rewrite Hpi, Hpw.
  split; intro H.
  - apply In_cleanup_path in H. now apply (In_cleanup_path_some _ _ _ Hi) in H.
  - now apply (In_cleanup_path_some _ _ _ Hv) in H.
Qed.

(** A request whose audio converts and is recognised as ["hello"]. *)
Definition stt_env_hello : stt_env :=
  mkSttEnv true (Ok [26; 69; 223; 163]) (Ok tt)
    (u "/tmp/tmpk3j9x2.webm") (u "/tmp/tmpq81mzd.wav")
    (FfmpegExited 0 true) (Ok (mkWavInfo 1 2 16000))
    (fun _ => Ok (JObj [(u "text", JStr (u "hello"))])).

(** C8: with [language=fr] the English model is used, but the response
    reports [detected_language = "fr"], which is neither [en] nor [ar]. *)
Theorem stt_language_fr_reported :
  stt_model (stt_detected_language (u "fr")) = vosk_model_en
  /\ speech_to_text stt_env_hello (u "fr") []
     = ([], JSONResponse 200 (JObj [(u "transcript", JStr (u "hello"));
                                    (u "detected_language", JStr (u "fr"));
                                    (u "status", JStr (u "success"))])).
Proof. split; vm_compute; reflexivity. Qed.

(** ** Chat history *)

Lemma store_get_put (st : store) (p : str) (c : file_content) :
  store_get (store_put p c st) p = Some c.
Proof. simpl. now rewrite (proj2 (str_eqb_eq p p) eq_refl). Qed.

(** What loading returns for a transcript saved at [now]. *)
Definition saved_transcript (name : str) (hist : list ChatMessage) (now : datetime) : json :=
  JObj [(u "patient_name", JStr name);
        (u "chat_history", JList (map message_json hist));
        (u "message_count", JInt (Z.of_nat (List.length hist)));
        (u "last_updated", JStr (isoformat now))].

(** C9 (as amended): when saving reports success, loading the same name
    returns the saved turns (role, text, order), their count and the
    [isoformat()] timestamp of the save; when the file cannot be created
    or written (an embedded NUL, a path the operating system rejects, a
    text that cannot be encoded) saving answers 500. *)
Theorem chat_history_roundtrip_on_success (PATIENT_DATA_FOLDER : str)
    (os_stat_error os_can_create : str -> bool) (st st' : store) (now : datetime)
    (name : str) (hist : list ChatMessage) (resp : response) :
  save_chat_history PATIENT_DATA_FOLDER os_stat_error os_can_create st now
    (mkSaveChatRequest name hist) = (st', resp) ->
  (status_of resp = 200 ->
   get_chat_history PATIENT_DATA_FOLDER os_stat_error st' name
   = JSONResponse 200 (saved_transcript name hist now))
  /\ (has_nul (chat_file PATIENT_DATA_FOLDER name) = true
      \/ os_stat_error (chat_file PATIENT_DATA_FOLDER name) = true
      \/ os_can_create (chat_file PATIENT_DATA_FOLDER name) = false
      \/ json_encodable (saved_transcript name hist now) = false ->
      status_of resp = 500).
Proof.
  unfold save_chat_history. cbn [patient_name saved_history].
  destruct (has_nul (chat_file PATIENT_DATA_FOLDER name)) eqn:Hn.
  { intro H. injection H as _ <-. split; [discriminate | reflexivity]. }
  destruct (os_stat_error (chat_file PATIENT_DATA_FOLDER name)) eqn:Hs; cbn [orb].
  { intro H. injection H as _ <-. split; [discriminate | reflexivity]. }
  destruct (os_can_create (chat_file PATIENT_DATA_FOLDER name)) eqn:Hc; cbn [negb].
  2:{ intro H. injection H as _ <-. split; [discriminate | reflexivity]. }
  fold (saved_transcript name hist now).
  destruct (json_encodable (saved_transcript name hist now)) eqn:He; cbn [negb].
  2:{ intro H. injection H as _ <-. split; [discriminate | reflexivity]. }
  intro H. injection H as <- <-. split.
  - intros _. unfold get_chat_history, path_exists.
    rewrite Hn, Hs, store_get_put. reflexivity.
  - intros [E|[E|[E|E]]]; discriminate E.
Qed.

(** A patient name with an embedded NUL, accepted as a JSON string. *)
Definition nul_name : str := u "Sara" ++ [0] ++ u "Ali".

Definition hist_one : list ChatMessage := [mkChatMessage (u "user") (u "I have a fever")].

Definition now_one : datetime := mkDatetime 2026 10 15 9 30 0 0.

(** C9 as stated fails: for [nul_name] the save answers 500
    ([open] raises [ValueError]) and loading then returns an empty
    history instead of the turns that were sent. *)
Lemma chat_history_roundtrip_nul_name :
  let '(st', resp) :=
    save_chat_history (u "patient_histories") name_too_long (fun _ => true) [] now_one
      (mkSaveChatRequest nul_name hist_one) in
  status_of resp = 500
  /\ get_chat_history (u "patient_histories") name_too_long st' nul_name
     = JSONResponse 200 (JObj [(u "patient_name", JStr nul_name);
                               (u "chat_history", JList []);
                               (u "message_count", JInt 0)])
  /\ get_chat_history (u "patient_histories") name_too_long st' nul_name
     <> JSONResponse 200 (saved_transcript nul_name hist_one now_one).
Proof. vm_compute. split; [reflexivity|]. split; [reflexivity|]. discriminate. Qed.

(** C10 (as amended): with no transcript file for the name, loading
    answers 200 with the name, an empty history and a count of 0 when
    the operating system can look the path up; when the lookup fails
    ([exists()] re-raises its [OSError]) it answers 500. *)
Theorem get_chat_history_missing (PATIENT_DATA_FOLDER : str) (os_stat_error : str -> bool)
    (st : store) (name : str) :
  store_get st (chat_file PATIENT_DATA_FOLDER name) = None ->
  (has_nul (chat_file PATIENT_DATA_FOLDER name) = true
   \/ os_stat_error (chat_file PATIENT_DATA_FOLDER name) = false ->
   get_chat_history PATIENT_DATA_FOLDER os_stat_error st name
   = JSONResponse 200 (JObj [(u "patient_name", JStr name);
                             (u "chat_history", JList []);
                             (u "message_count", JInt 0)]))
  /\ (has_nul (chat_file PATIENT_DATA_FOLDER name) = false ->
      os_stat_error (chat_file PATIENT_DATA_FOLDER name) = true ->
      get_chat_history PATIENT_DATA_FOLDER os_stat_error st name
      = error_response 500 (exn_message OSError)).
Proof.
  intro Hg. unfold get_chat_history, path_exists. cbv zeta. split.
  - intros [Hn|Hs].
    + now rewrite Hn.
    + rewrite Hs. destruct (has_nul _); [reflexivity|]. now rewrite Hg.
  - intros Hn Hs. now rewrite Hn, Hs.
Qed.

(** A name of 250 letters: its transcript file name has 260 bytes. *)
Definition long_name : str := repeat 97 250.

(** C10 as stated fails: nothing is stored under [long_name], yet
    [os.stat] of its transcript path fails with ENAMETOOLONG, which
    [Path.exists()] re-raises, and loading answers 500. *)
Lemma get_chat_history_long_name :
  store_get [] (chat_file (u "patient_histories") long_name) = None
  /\ name_too_long (chat_file (u "patient_histories") long_name) = true
  /\ get_chat_history (u "patient_histories") name_too_long [] long_name
     = error_response 500 (exn_message OSError).
Proof. vm_compute. split; [reflexivity|]. split; reflexivity. Qed.

(* ================================================================== *)
(** * Further properties of the endpoints *)

Lemma str_eqb_refl s : str_eqb s s = true.
Proof. now apply str_eqb_eq. Qed.

Lemma detect_language_en_or_ar (langdetect_detect : str -> res str) (text : str) :
  detect_language langdetect_detect text = u "en"
  \/ detect_language langdetect_detect text = u "ar".
Proof.
  unfold detect_language.
  destruct (existsb is_arabic_char text); [now right|].
  destruct (langdetect_detect text) as [lang|e]; [|now left].
  destruct (str_eqb lang (u "ar")); [now right | now left].
Qed.

Lemma en_or_ar_of (l : str) : is_en_or_ar l = true -> l = u "en" \/ l = u "ar".
Proof.
  unfold is_en_or_ar. intro E. apply orb_true_iff in E as [E|E];
    apply str_eqb_eq in E; auto.
Qed.

Lemma chat_language_en_or_ar (langdetect_detect : str -> res str) (request : ChatRequest) :
  chat_language langdetect_detect request = u "en"
  \/ chat_language langdetect_detect request = u "ar".
Proof.
  unfold chat_language.
  destruct (language request) as [l|]; [|now left].
  destruct (str_eqb l (u "auto")); [apply detect_language_en_or_ar|].
  destruct (is_en_or_ar l) eqn:E; [now apply en_or_ar_of | now left].
Qed.

Lemma tts_language_en_or_ar (langdetect_detect : str -> res str) (req : TTSRequest) :
  tts_language langdetect_detect req = u "en" \/ tts_language langdetect_detect req = u "ar".
Proof.
  unfold tts_language.
  destruct (existsb is_tts_arabic_char (tts_text req)); [now right|].
  destruct (language_code req) as [l|]; [|now left].
  destruct (str_eqb l (u "auto")); [apply detect_language_en_or_ar|].
  destruct (is_en_or_ar l) eqn:E; [now apply en_or_ar_of | now left].
Qed.

Lemma chat_ok (langdetect_detect : str -> res str) (py_repr : json -> str)
    (EN AR : str) (biomarker_predict : dict -> res json)
    (generate_content : list Content -> res str) (request : ChatRequest) (body : json) :
  chat langdetect_detect py_repr EN AR biomarker_predict generate_content request
  = JSONResponse 200 body ->
  exists rep contents t,
    chat_contents langdetect_detect py_repr EN AR biomarker_predict request
      = Ok (chat_language langdetect_detect request, rep, contents)
    /\ generate_content contents = Ok t
    /\ body = JObj [
         (u "reply", JStr (strip t));
         (u "detected_language", JStr (chat_language langdetect_detect request));
         (u "response_language", JStr (detect_language langdetect_detect (strip t)));
         (u "has_patient_data",
           JBool (match patient_data request with Some _ => true | None => false end));
         (u "has_biomarker_report",
           JBool (match rep with Some _ => true | None => false end))].
Proof.
  unfold chat.
  destruct (chat_contents _ _ _ _ _ request) as [[[lang rep] contents]|e] eqn:Hc;
    [|unfold error_response; discriminate].
  destruct (generate_content contents) as [t|e] eqn:Hg; [|unfold error_response; discriminate].
  intro H. injection H as <-.
  assert (Hl : lang = chat_language langdetect_detect request).
  { unfold chat_contents in Hc. cbv beta zeta in Hc.
    apply res_bind_ok in Hc as [[sp r0] [_ Hc]].
    cbv beta iota in Hc. now injection Hc as <- _ _. }
  subst lang. exists rep, contents, t. auto.
Qed.

(** X1: a successful [/chat] answer reports a detected language and a
    reply language that are each [en] or [ar]. *)
Theorem chat_reported_languages (langdetect_detect : str -> res str) (py_repr : json -> str)
    (EN AR : str) (biomarker_predict : dict -> res json)
    (generate_content : list Content -> res str) (request : ChatRequest) (body : json) :
  chat langdetect_detect py_repr EN AR biomarker_predict generate_content request
  = JSONResponse 200 body ->
  exists reply l1 l2 hp hb,
    body = JObj [(u "reply", JStr reply); (u "detected_language", JStr l1);
                 (u "response_language", JStr l2); (u "has_patient_data", JBool hp);
                 (u "has_biomarker_report", JBool hb)]
    /\ (l1 = u "en" \/ l1 = u "ar") /\ (l2 = u "en" \/ l2 = u "ar").
Proof.
  intro H. apply chat_ok in H as [rep [contents [t [_ [_ ->]]]]].
  do 5 eexists. split; [reflexivity|].
  split; [apply chat_language_en_or_ar | apply detect_language_en_or_ar].
Qed.

Lemma lstrip_head (s : str) :
  match lstrip s with [] => True | c :: _ => py_isspace c = false end.
Proof.
  induction s as [|c s IH]; simpl; [exact I|].
  destruct (py_isspace c) eqn:E; [exact IH | exact E].
Qed.

Lemma lstrip_keeps_last (x : str) (c : Z) :
  py_isspace c = false -> exists y, lstrip (x ++ [c]) = y ++ [c].
Proof.
  intro Hc. induction x as [|a x IH]; simpl.
  - rewrite Hc. now exists [].
  - destruct (py_isspace a); [exact IH | now exists (a :: x)].
Qed.

Lemma strip_no_surrounding_space (s : str) :
  (forall c r, strip s = c :: r -> py_isspace c = false)
  /\ (forall r c, strip s = r ++ [c] -> py_isspace c = false).
Proof.
  unfold strip. split.
  - intros c r H.
    pose proof (lstrip_head s) as Hh.
    destruct (lstrip s) as [|c0 t] eqn:E; [discriminate H|].
    simpl in H. destruct (lstrip_keeps_last (rev t) c0 Hh) as [y Hy].
    rewrite Hy, rev_app_distr in H. simpl in H. now injection H as <- _.
  - intros r c H.
    apply (f_equal (@rev Z)) in H. rewrite rev_involutive, rev_app_distr in H.
    simpl in H. pose proof (lstrip_head (rev (lstrip s))) as Hh.
    rewrite H in Hh. exact Hh.
Qed.

(** X2: the reply of a successful [/chat] answer neither starts nor ends
    with a whitespace character. *)
Theorem chat_reply_stripped (langdetect_detect : str -> res str) (py_repr : json -> str)
    (EN AR : str) (biomarker_predict : dict -> res json)
    (generate_content : list Content -> res str) (request : ChatRequest)
    (reply : str) (rest : dict) :
  chat langdetect_detect py_repr EN AR biomarker_predict generate_content request
  = JSONResponse 200 (JObj ((u "reply", JStr reply) :: rest)) ->
  (forall c r, reply = c :: r -> py_isspace c = false)
  /\ (forall r c, reply = r ++ [c] -> py_isspace c = false).
Proof.
  intro H. apply chat_ok in H as [rep [contents [t [_ [_ H]]]]].
  injection H as -> _. apply strip_no_surrounding_space.
Qed.

(** The request without biomarker data or analysis. *)
Definition without_biomarkers (request : ChatRequest) : ChatRequest :=
  mkChatRequest (message request) (language request) (chat_history request)
    (patient_data request) None None.

(** X3: when no analysis is given and the biomarker analysis of the
    given data raises, [/chat] answers exactly as if neither biomarker
    data nor analysis had been sent. *)
Theorem chat_biomarker_failure_ignored (langdetect_detect : str -> res str)
    (py_repr : json -> str) (EN AR : str) (biomarker_predict : dict -> res json)
    (generate_content : list Content -> res str) (request : ChatRequest)
    (d : dict) (e : exn) :
  biomarker_data request = Some d -> d <> [] ->
  opt_dict_truthy (biomarker_analysis request) = false ->
  biomarker_predict d = Err e ->
  chat langdetect_detect py_repr EN AR biomarker_predict generate_content request
  = chat langdetect_detect py_repr EN AR biomarker_predict generate_content
      (without_biomarkers request).
Proof.
  intros Hd Hne Ha He.
  assert (Hr : report_of biomarker_predict request = None).
  { unfold report_of. rewrite Ha, Hd. destruct d as [|kv d]; [contradiction|].
    cbn [negb andb opt_dict_truthy]. unfold call_biomarker_api. now rewrite He. }
  assert (Hc : chat_contents langdetect_detect py_repr EN AR biomarker_predict request
               = chat_contents langdetect_detect py_repr EN AR biomarker_predict
                   (without_biomarkers request)).
  { unfold chat_contents. cbv beta zeta.
    rewrite !build_system_prompt_blocks, Hr. reflexivity. }
  unfold chat. rewrite Hc. reflexivity.
Qed.

(** X4: when rendering a non-empty patient record raises (e.g. a
    [personal_info] that is not a dict), [/chat] answers 500 with the
    exception, whatever the model would have said. *)
Theorem chat_patient_record_error (langdetect_detect : str -> res str)
    (py_repr : json -> str) (EN AR : str) (biomarker_predict : dict -> res json)
    (generate_content : list Content -> res str) (request : ChatRequest)
    (pd : dict) (e : exn) :
  patient_data request = Some pd -> pd <> [] ->
  format_patient_history py_repr pd (chat_language langdetect_detect request) = Err e ->
  chat langdetect_detect py_repr EN AR biomarker_predict generate_content request
  = error_response 500 (exn_message e).
Proof.
  intros Hp Hne Hf.
  assert (Hc : chat_contents langdetect_detect py_repr EN AR biomarker_predict request = Err e).
  { unfold chat_contents. cbv beta zeta.
    rewrite build_system_prompt_blocks. unfold patient_block. rewrite Hp.
    destruct pd as [|kv pd]; [contradiction|]. cbn [opt_dict_truthy].
    rewrite Hf. reflexivity. }
  unfold chat. now rewrite Hc.
Qed.

Lemma is_prefix_app (p s : str) : is_prefix p (p ++ s) = true.
Proof.
  induction p as [|c p IH]; [destruct s; reflexivity|].
  cbn [app is_prefix]. now rewrite Z.eqb_refl.
Qed.

Lemma is_prefix_app_r (p t r : str) : is_prefix p t = true -> is_prefix p (t ++ r) = true.
Proof.
  revert t. induction p as [|c p IH]; intros [|d t] H; try reflexivity; try discriminate H.
  cbn [app is_prefix] in H |- *. apply andb_prop in H as [H1 H2].
  now rewrite H1, (IH _ H2).
Qed.

Lemma contains_app_r (t r p : str) : contains t p = true -> contains (t ++ r) p = true.
Proof.
  induction t as [|c t IH]; intro H.
  - cbn [contains] in H. rewrite orb_false_r in H. destruct p; [|discriminate H].
    destruct r; reflexivity.
  - cbn [app contains] in H |- *. apply orb_prop in H as [H|H].
    + pose proof (is_prefix_app_r p (c :: t) r H) as E. cbn [app] in E. now rewrite E.
    + rewrite (IH H). apply orb_true_r.
Qed.

Lemma contains_app_l (l t p : str) : contains t p = true -> contains (l ++ t) p = true.
Proof.
  induction l as [|c l IH]; intro H; [exact H|].
  cbn [app contains]. rewrite (IH H). apply orb_true_r.
Qed.

Lemma contains_prefix (p r : str) : contains (p ++ r) p = true.
Proof.
  destruct (p ++ r) as [|c t] eqn:E; cbn [contains];
    rewrite <- E, is_prefix_app; reflexivity.
Qed.

Section RenderProofs.
Variable py_repr : json -> str.

Lemma render_personal_ok_any (l1 l2 l3 l1' l2' l3' : str) (pd : dict) (p : str) :
  render_personal py_repr l1 l2 l3 pd = Ok p ->
  exists p', render_personal py_repr l1' l2' l3' pd = Ok p'.
Proof.
  unfold render_personal.
  destruct (get_truthy pd (u "personal_info")) as [[| | | | |info]|]; intro H;
    try discriminate H; eexists; reflexivity.
Qed.

Lemma render_list_ok_any (h b h' b' key : str) (pd : dict) (x : str) :
  render_list py_repr h b key pd = Ok x -> exists x', render_list py_repr h' b' key pd = Ok x'.
Proof.
  unfold render_list. destruct (get_truthy pd key) as [v|]; [|eexists; reflexivity].
  destruct (py_iter v); cbn [res_bind]; [eexists; reflexivity | discriminate].
Qed.

Lemma render_visits_ok_any (h b h' b' : str) (n n' : nat) (pd : dict) (x : str) :
  render_visits py_repr h b n pd = Ok x -> exists x', render_visits py_repr h' b' n' pd = Ok x'.
Proof.
  unfold render_visits.
  destruct (get_truthy pd (u "previous_visits")) as [v|]; [|eexists; reflexivity].
  destruct v; cbn [py_last py_iter res_bind]; try discriminate; eexists; reflexivity.
Qed.

(** The Arabic rendering does not read [vital_signs]: two non-empty
    records that agree on every other key render alike. *)
Lemma format_patient_history_ar_vitals_unused (pd pd' : dict) :
  pd <> [] -> pd' <> [] ->
  (forall k, k <> u "vital_signs" -> dict_get pd' k = dict_get pd k) ->
  format_patient_history py_repr pd' (u "ar") = format_patient_history py_repr pd (u "ar").
Proof.
  intros H1 H2 Hag.
  assert (G : forall k, k <> u "vital_signs" -> get_truthy pd' k = get_truthy pd k)
    by (intros k Hk; unfold get_truthy; now rewrite Hag).
  destruct pd as [|kv pd]; [contradiction|]. destruct pd' as [|kv' pd']; [contradiction|].
  unfold format_patient_history. rewrite str_eqb_refl.
  unfold render_personal, render_list, render_visits.
  rewrite !G; [reflexivity | ..]; intro E; vm_compute in E; discriminate E.
Qed.

(** X5: for a record the Arabic rendering accepts, the English rendering
    raises [AttributeError] exactly when [vital_signs] is truthy and not a
    dict, and the Arabic rendering never reads [vital_signs]: any
    non-empty record that differs only there renders to the same block. *)
Theorem format_patient_history_en_vitals_error (pd pd' : dict) (lang s : str) :
  str_eqb lang (u "ar") = false ->
  format_patient_history py_repr pd (u "ar") = Ok s ->
  (format_patient_history py_repr pd lang = Err AttributeError
   <-> exists v, get_truthy pd (u "vital_signs") = Some v /\ forall kvs, v <> JObj kvs)
  /\ (pd <> [] -> pd' <> [] ->
      (forall k, k <> u "vital_signs" -> dict_get pd' k = dict_get pd k) ->
      format_patient_history py_repr pd' (u "ar") = Ok s).
Proof.
  intros Hl H. split.
  2:{ intros H1 H2 Hag. rewrite <- H. now apply format_patient_history_ar_vitals_unused. }
  destruct pd as [|kv pd].
  - split; [discriminate | intros [v [Hv _]]; discriminate Hv].
  - unfold format_patient_history in H |- *. rewrite Hl, str_eqb_refl in *.
    apply res_bind_ok in H as [p [Hp H]].
    apply res_bind_ok in H as [h [Hh H]].
    apply res_bind_ok in H as [m [Hm H]].
    apply res_bind_ok in H as [a [Ha H]].
    apply res_bind_ok in H as [v [Hv _]].
    destruct (render_personal_ok_any _ _ _ (u "👤 Name: ") (u "📅 Age: ") (u "⚧ Gender: ")
                _ _ Hp) as [p' ->].
    destruct (render_list_ok_any _ _ (u "🏥 KNOWN MEDICAL CONDITIONS (CRITICAL):") (u "   • ")
                _ _ _ Hh) as [h' ->].
    destruct (render_list_ok_any _ _ (u "💊 CURRENT MEDICATIONS (Check for interactions):")
                (u "   • ") _ _ _ Hm) as [m' ->].
    destruct (render_list_ok_any _ _ (u "🚨 ALLERGIES (NEVER recommend these):") (u "   • ")
                _ _ _ Ha) as [a' ->].
    destruct (render_visits_ok_any _ _ (u "📋 RECENT VISIT HISTORY:") (u "   • ") _ 5
                _ _ Hv) as [v' ->].
    cbn [res_bind]. unfold render_vitals.
    destruct (get_truthy (kv :: pd) (u "vital_signs")) as [[| | | | |vitals]|];
      cbn [res_bind].
    all: split; [intro E | intros [w [Hw Hn]]].
    all: first [ discriminate E | reflexivity
               | (eexists; split; [reflexivity | intros kvs Hk; discriminate Hk])
               | (injection Hw as <-; exfalso; eapply Hn; reflexivity)
               | discriminate Hw ].
Qed.

Lemma render_items_contains (bullet : str) (items : list json) (x : json) :
  In x items ->
  contains (render_items py_repr bullet items) (bullet ++ py_format py_repr x ++ NL) = true.
Proof.
  unfold render_items. induction items as [|y items IH]; [intros []|].
  intros [<-|Hx]; cbn [map List.concat].
  - apply contains_prefix.
  - apply contains_app_l. now apply IH.
Qed.

Lemma render_list_contains (h b key : str) (pd : dict) (xs : list json) (x : json) (r : str) :
  dict_get pd key = Some (JList xs) -> In x xs ->
  render_list py_repr h b key pd = Ok r ->
  contains r (b ++ py_format py_repr x ++ NL) = true.
Proof.
  intros Hd Hx. unfold render_list, get_truthy. rewrite Hd.
  destruct xs as [|y ys]; [destruct Hx|]. cbn [truthy negb py_iter res_bind].
  intro H. injection H as <-.
  change (contains (NL ++ h ++ NL ++ render_items py_repr b (y :: ys))
            (b ++ py_format py_repr x ++ NL) = true).
  do 3 apply contains_app_l. now apply render_items_contains.
Qed.

Ltac find_piece H :=
  first [ exact H
        | apply contains_app_r; exact H
        | apply contains_app_l; find_piece H ].

(** X6: in both languages the block lists every item of the medical
    history, of the medications and of the allergies, each on a bullet
    line of its own. *)
Theorem format_patient_history_lists_items (pd : dict) (lang s key : str)
    (xs : list json) (x : json) :
  In key [u "medical_history"; u "medications"; u "allergies"] ->
  dict_get pd key = Some (JList xs) -> In x xs ->
  format_patient_history py_repr pd lang = Ok s ->
  contains s ((if str_eqb lang (u "ar") then u "• " else u "   • ")
              ++ py_format py_repr x ++ NL) = true.
Proof.
  intros Hk Hd Hx H. destruct pd as [|kv pd]; [discriminate Hd|].
  unfold format_patient_history in H.
  destruct (str_eqb lang (u "ar")).
  - apply res_bind_ok in H as [p [_ H]].
    apply res_bind_ok in H as [h [Hh H]].
    apply res_bind_ok in H as [m [Hm H]].
    apply res_bind_ok in H as [a [Ha H]].
    apply res_bind_ok in H as [v [_ H]].
    injection H as <-.
    destruct Hk as [<-|[<-|[<-|[]]]].
    + pose proof (render_list_contains _ _ _ _ _ _ _ Hd Hx Hh) as C. find_piece C.
    + pose proof (render_list_contains _ _ _ _ _ _ _ Hd Hx Hm) as C. find_piece C.
    + pose proof (render_list_contains _ _ _ _ _ _ _ Hd Hx Ha) as C. find_piece C.
  - apply res_bind_ok in H as [p [_ H]].
    apply res_bind_ok in H as [h [Hh H]].
    apply res_bind_ok in H as [m [Hm H]].
    apply res_bind_ok in H as [a [Ha H]].
    apply res_bind_ok in H as [v [_ H]].
    apply res_bind_ok in H as [w [_ H]].
    injection H as <-.
    destruct Hk as [<-|[<-|[<-|[]]]].
    + pose proof (render_list_contains _ _ _ _ _ _ _ Hd Hx Hh) as C. find_piece C.
    + pose proof (render_list_contains _ _ _ _ _ _ _ Hd Hx Hm) as C. find_piece C.
    + pose proof (render_list_contains _ _ _ _ _ _ _ Hd Hx Ha) as C. find_piece C.
Qed.
End RenderProofs.

(** X7: a [/tts] audio answer is non-empty MPEG audio made of the audio
    chunks of the stream; its [X-Language] is [en] or [ar] and its
    [X-Voice] is the custom voice when one is given, else the language's
    default voice. *)
Theorem text_to_speech_headers (langdetect_detect : str -> res str)
    (edge_tts_stream : str -> str -> res (list TTSChunk)) (req : TTSRequest)
    (buf : list Z) (mt : str) (headers : list (str * str)) :
  text_to_speech langdetect_detect edge_tts_stream req = StreamingResponse buf mt headers ->
  buf <> [] /\ mt = u "audio/mpeg"
  /\ exists lang v,
       headers = [(u "Content-Disposition", u "inline; filename=speech.mp3");
                  (u "X-Language", lang); (u "X-Voice", v);
                  (u "Cache-Control", u "no-cache")]
       /\ (lang = u "en" \/ lang = u "ar")
       /\ v = match voice req with
              | Some ((_ :: _) as custom) => custom
              | _ => default_voice lang
              end
       /\ exists chunks, edge_tts_stream (strip (tts_text req)) v = Ok chunks
                         /\ buf = audio_bytes chunks.
Proof.
  unfold text_to_speech. cbv zeta.
  destruct (edge_tts_stream _ _) as [chunks|e] eqn:Hs; [|discriminate].
  destruct (audio_bytes chunks) as [|b bs] eqn:Ha; [discriminate|].
  intro H. injection H as <- <- <-.
  split; [discriminate|]. split; [reflexivity|].
  exists (tts_language langdetect_detect req),
         (tts_voice req (tts_language langdetect_detect req)).
  split; [reflexivity|]. split; [apply tts_language_en_or_ar|].
  split; [reflexivity|]. now exists chunks.
Qed.

Lemma In_add_file x p fs : In x fs -> In x (add_file p fs).
Proof. unfold add_file. destruct (file_exists fs p); simpl; auto. Qed.

Lemma In_add_file_inv x p fs : In x (add_file p fs) -> x = p \/ In x fs.
Proof. unfold add_file. destruct (file_exists fs p); simpl; intuition. Qed.

Lemma In_cleanup_path_keep x p fs :
  In x fs -> (forall q, p = Some q -> x <> q) -> In x (cleanup_path p fs).
Proof.
  intros Hx Hq. unfold cleanup_path. destruct p as [[|c q]|]; auto.
  destruct (file_exists fs (c :: q)); auto.
  unfold remove_file. apply filter_In. split; [exact Hx|].
  destruct (str_eqb x (c :: q)) eqn:E; [|reflexivity].
  apply str_eqb_eq in E. exfalso. now apply (Hq (c :: q)).
Qed.

(** The files and paths after the [try] block. *)
Lemma stt_body_state (env : stt_env) (language : str) (fs : list str) :
  let s := fst (stt_body env language (mkSttState fs None None)) in
  s = mkSttState (add_file (input_name env) fs) None None
  \/ s = mkSttState (add_file (input_name env) fs) (Some (input_name env)) (Some (wav_name env))
  \/ s = mkSttState (add_file (wav_name env) (add_file (input_name env) fs))
           (Some (input_name env)) (Some (wav_name env)).
Proof.
  unfold stt_body, mbind, create_file, lift, set_input_path, set_wav_path, ret, raise.
  cbn -[u stt_model stt_detected_language add_file].
  destruct (upload_read env) as [content|e]; cbn -[u stt_model stt_detected_language add_file];
    [|auto].
  destruct (temp_write env) as [[]|e]; cbn -[u stt_model stt_detected_language add_file];
    [|auto].
  destruct (ffmpeg_run env) as [rc [|]|[|]|e];
    cbn -[u stt_model stt_detected_language add_file]; auto;
    destruct (negb (rc =? 0)); cbn -[u stt_model stt_detected_language add_file]; auto;
    destruct (wave_open env) as [wf|e]; cbn -[u stt_model stt_detected_language add_file]; auto;
    destruct (negb (nchannels wf =? 1) || negb (sampwidth wf =? 2));
    cbn -[u stt_model stt_detected_language add_file]; auto;
    destruct (final_result env _) as [fin|e];
    cbn -[u stt_model stt_detected_language add_file]; auto;
    destruct (transcript_of fin); cbn -[u stt_model stt_detected_language add_file]; auto.
Qed.

(** X8: [/stt] never removes a file other than its two temporary files,
    and the only file it may leave behind is its temporary upload. *)
Theorem speech_to_text_files (env : stt_env) (language : str) (fs : list str) :
  wav_name env <> [] ->
  (forall x, In x fs -> x <> input_name env -> x <> wav_name env ->
             In x (fst (speech_to_text env language fs)))
  /\ (forall x, In x (fst (speech_to_text env language fs)) ->
                In x fs \/ x = input_name env).
Proof.
  intros Hw. unfold speech_to_text.
  destruct (STT_AVAILABLE env); cbn [negb]; [|simpl; auto].
  pose proof (stt_body_state env language fs) as Hs. cbv zeta in Hs.
  destruct (stt_body env language (mkSttState fs None None)) as [s r].
  simpl fst in Hs |- *. unfold cleanup.
  split.
  - intros x Hx Hi Hv.
    assert (Hi' : forall q, Some (input_name env) = Some q -> x <> q)
      by (intros q Hq; now injection Hq as <-).
    assert (Hv' : forall q, Some (wav_name env) = Some q -> x <> q)
      by (intros q Hq; now injection Hq as <-).
    destruct Hs as [-> | [-> | ->]]; cbn [files tmp_input_path tmp_wav_path].
    + now apply In_add_file.
    + apply In_cleanup_path_keep; [|exact Hv'].
      apply In_cleanup_path_keep; [|exact Hi'].
      now apply In_add_file.
    + apply In_cleanup_path_keep; [|exact Hv'].
      apply In_cleanup_path_keep; [|exact Hi'].
      now apply In_add_file, In_add_file.
  - intros x Hx.
    destruct Hs as [-> | [-> | ->]]; cbn [files tmp_input_path tmp_wav_path] in Hx.
    + apply In_add_file_inv in Hx as [->|]; auto.
    + apply In_cleanup_path, In_cleanup_path, In_add_file_inv in Hx as [->|]; auto.
    + pose proof (In_cleanup_path_some _ _ _ Hw Hx) as Hne.
      apply In_cleanup_path, In_cleanup_path, In_add_file_inv in Hx as [->|Hx];
        [contradiction|].
      apply In_add_file_inv in Hx as [->|]; auto.
Qed.

(** X9: once the upload is written, a non-zero ffmpeg exit answers 500
    [Audio conversion failed], an ffmpeg timeout 500 [Audio processing
    timeout], and a converted file that is not 16-bit mono 400 [Invalid
    WAV format]. *)
Theorem speech_to_text_failures (env : stt_env) (language : str) (fs : list str)
    (content : list Z) :
  STT_AVAILABLE env = true -> upload_read env = Ok content -> temp_write env = Ok tt ->
  (forall rc w, ffmpeg_run env = FfmpegExited rc w -> rc <> 0 ->
     snd (speech_to_text env language fs) = error_response 500 (u "Audio conversion failed"))
  /\ (forall w, ffmpeg_run env = FfmpegTimeout w ->
     snd (speech_to_text env language fs) = error_response 500 (u "Audio processing timeout"))
  /\ (forall w wf, ffmpeg_run env = FfmpegExited 0 w -> wave_open env = Ok wf ->
     (nchannels wf <> 1 \/ sampwidth wf <> 2) ->
     snd (speech_to_text env language fs) = error_response 400 (u "Invalid WAV format")).
Proof.
  intros Ha Hr Hw. unfold speech_to_text. rewrite Ha. cbn [negb].
  unfold stt_body, mbind, create_file, lift, set_input_path, set_wav_path, ret, raise.
  rewrite Hr, Hw. split; [|split].
  - intros rc w Hf Hrc. rewrite Hf. apply Z.eqb_neq in Hrc.
    destruct w; cbn -[u cleanup]; rewrite Hrc; reflexivity.
  - intros w Hf. rewrite Hf. destruct w; reflexivity.
  - intros w wf Hf Ho Hbad. rewrite Hf, Ho.
    assert (Hb : negb (nchannels wf =? 1) || negb (sampwidth wf =? 2) = true).
    { destruct Hbad as [H|H]; apply Z.eqb_neq in H; rewrite H; [reflexivity|].
      apply orb_true_r. }
    destruct w; cbn -[u cleanup stt_model stt_detected_language]; rewrite Hb; reflexivity.
Qed.


Lemma patient_file_chat (PATIENT_DATA_FOLDER name : str) :
  patient_file PATIENT_DATA_FOLDER (name ++ u "_chat") = chat_file PATIENT_DATA_FOLDER name.
Proof.
  unfold patient_file, chat_file. rewrite <- app_assoc. reflexivity.
Qed.


(** X11: after a successful save of [name]'s chat history,
    [/patient/{name}_chat] serves the saved transcript as patient data. *)
Theorem chat_transcript_served_as_patient (PATIENT_DATA_FOLDER : str)
    (os_stat_error os_can_create : str -> bool) (st st' : store) (now : datetime)
    (name : str) (hist : list ChatMessage) (resp : response) :
  save_chat_history PATIENT_DATA_FOLDER os_stat_error os_can_create st now
    (mkSaveChatRequest name hist) = (st', resp) ->
  status_of resp = 200 ->
  get_patient_data PATIENT_DATA_FOLDER os_stat_error st' (name ++ u "_chat")
  = Ok (JSONResponse 200 (saved_transcript name hist now)).
Proof.
  unfold save_chat_history. cbn [patient_name saved_history].
  destruct (has_nul (chat_file PATIENT_DATA_FOLDER name)) eqn:Hn.
  { intro H. injection H as _ <-. discriminate. }
  destruct (os_stat_error (chat_file PATIENT_DATA_FOLDER name)) eqn:Hs; cbn [orb].
  { intro H. injection H as _ <-. discriminate. }
  destruct (os_can_create (chat_file PATIENT_DATA_FOLDER name)); cbn [negb].
  2:{ intro H. injection H as _ <-. discriminate. }
  destruct (json_encodable _); cbn [negb].
  2:{ intro H. injection H as _ <-. discriminate. }
  intros H _. injection H as <- _.
  unfold get_patient_data, load_patient_data, path_exists.
  rewrite patient_file_chat, Hn, Hs, store_get_put. reflexivity.
Qed.

Section Listing.
Variable PATIENT_DATA_FOLDER : str.

(** The patient a stored file contributes to the listing. *)
Definition listed (key : str) : list str :=
  match folder_entry PATIENT_DATA_FOLDER key with
  | Some n =>
      if ends_with n (u ".json") && negb (ends_with (py_stem n) (u "_chat"))
      then [py_stem n] else []
  | None => []
  end.

Lemma patients_listed (st : store) :
  map py_stem (filter (fun f => negb (ends_with (py_stem f) (u "_chat")))
                 (glob_json PATIENT_DATA_FOLDER st))
  = flat_map (fun kc => listed (fst kc)) st.
Proof.
  unfold glob_json. induction st as [|[k c] st IH]; [reflexivity|].
  cbn [flat_map fst]. rewrite filter_app, filter_app, map_app, IH.
  f_equal. unfold listed.
  destruct (folder_entry PATIENT_DATA_FOLDER k) as [n|]; [|reflexivity].
  cbn [filter]. destruct (ends_with n (u ".json")); [|reflexivity].
  cbn [filter andb]. destruct (ends_with (py_stem n) (u "_chat")); reflexivity.
Qed.

Lemma flat_map_listed_remove (p : str) (st : store) :
  listed p = [] ->
  flat_map (fun kc => listed (fst kc)) (filter (fun qc => negb (str_eqb (fst qc) p)) st)
  = flat_map (fun kc => listed (fst kc)) st.
Proof.
  intro Hp. induction st as [|[k c] st IH]; [reflexivity|].
  cbn [filter fst]. destruct (str_eqb k p) eqn:E; cbn [negb flat_map fst].
  - apply str_eqb_eq in E. subst k. now rewrite Hp, IH.
  - now rewrite IH.
Qed.

Lemma strip_prefix_app (p s : str) : strip_prefix p (p ++ s) = Some s.
Proof.
  induction p as [|c p IH]; [destruct s; reflexivity|].
  cbn [app strip_prefix]. now rewrite Z.eqb_refl.
Qed.

Lemma ends_with_app (x y : str) : ends_with (x ++ y) y = true.
Proof. unfold ends_with. rewrite rev_app_distr. apply is_prefix_app. Qed.

Lemma last_index_from_app (c : Z) (a b : str) (i : nat) (acc : option nat) :
  last_index_from c (a ++ b) i acc
  = last_index_from c b (i + List.length a) (last_index_from c a i acc).
Proof.
  revert i acc. induction a as [|d a IH]; intros i acc.
  - cbn. now rewrite Nat.add_0_r.
  - cbn [app last_index_from List.length]. rewrite IH. now rewrite Nat.add_succ_r.
Qed.

Lemma last_index_from_none (c : Z) (b : str) (i : nat) (acc : option nat) :
  forallb (fun d => negb (d =? c)) b = true -> last_index_from c b i acc = acc.
Proof.
  revert i acc. induction b as [|d b IH]; intros i acc H; [reflexivity|].
  cbn [forallb] in H. apply andb_prop in H as [H1 H2].
  cbn [last_index_from]. destruct (d =? c); [discriminate H1|]. now apply IH.
Qed.

Lemma py_stem_chat (name : str) :
  py_stem (name ++ u "_chat.json") = name ++ u "_chat".
Proof.
  assert (E : name ++ u "_chat.json" = (name ++ u "_chat") ++ [46] ++ u "json")
    by (rewrite <- app_assoc; reflexivity).
  unfold py_stem, rfind. rewrite E, !last_index_from_app.
  rewrite (last_index_from_none 46 (u "json")) by reflexivity.
  cbn [last_index_from Z.eqb Pos.eqb]. rewrite Nat.add_0_l.
  assert (L : (List.length ((name ++ u "_chat") ++ [46%Z] ++ u "json")
              = List.length (name ++ u "_chat") + 5)%nat)
    by (rewrite length_app; reflexivity).
  assert (L5 : List.length (name ++ u "_chat") = (List.length name + 5)%nat)
    by (rewrite length_app; reflexivity).
  rewrite L.
  replace ((0 <? List.length (name ++ u "_chat"))%nat
           && (List.length (name ++ u "_chat") <? List.length (name ++ u "_chat") + 5 - 1)%nat)
    with true by (symmetry; apply andb_true_iff; split; apply Nat.ltb_lt; lia).
  rewrite <- (Nat.add_0_r (List.length (name ++ u "_chat"))) at 1.
  now rewrite firstn_app_2, app_nil_r.
Qed.

(** A chat-history file never contributes to the listing. *)
Lemma listed_chat_file (name : str) :
  listed (chat_file PATIENT_DATA_FOLDER name) = [].
Proof.
  unfold listed, folder_entry, chat_file.
  rewrite (app_assoc PATIENT_DATA_FOLDER (u "/")), strip_prefix_app.
  destruct (name ++ u "_chat.json") as [|c r] eqn:E.
  - reflexivity.
  - destruct (existsb (Z.eqb 47) (c :: r)); [reflexivity|].
    rewrite <- E, py_stem_chat, ends_with_app, andb_false_r. reflexivity.
Qed.
End Listing.

Lemma list_patients_flat (F : str) (st : store) :
  list_patients F st
  = JSONResponse 200 (JObj [
      (u "patients", JList (map JStr (flat_map (fun kc => listed F (fst kc)) st)));
      (u "count", JInt (Z.of_nat (List.length (flat_map (fun kc => listed F (fst kc)) st))));
      (u "folder", JStr F)]).
Proof. unfold list_patients. cbv zeta. now rewrite patients_listed. Qed.

Lemma list_patients_remove (F p : str) (st : store) :
  listed F p = [] ->
  list_patients F (filter (fun qc => negb (str_eqb (fst qc) p)) st) = list_patients F st.
Proof. intro Hp. now rewrite !list_patients_flat, flat_map_listed_remove. Qed.

(** X12: saving or deleting a chat history never changes what
    [/patients] lists. *)
Theorem patient_list_unaffected_by_chat_history (PATIENT_DATA_FOLDER : str)
    (os_stat_error os_can_create os_can_remove : str -> bool) (st : store) (now : datetime)
    (request : SaveChatRequest) (name : str) :
  list_patients PATIENT_DATA_FOLDER
    (fst (save_chat_history PATIENT_DATA_FOLDER os_stat_error os_can_create st now request))
  = list_patients PATIENT_DATA_FOLDER st
  /\ list_patients PATIENT_DATA_FOLDER
       (fst (delete_chat_history PATIENT_DATA_FOLDER os_stat_error os_can_remove st name))
     = list_patients PATIENT_DATA_FOLDER st.
Proof.
  split.
  - unfold save_chat_history. cbv zeta.
    destruct (has_nul _); [reflexivity|].
    destruct (os_stat_error _ || negb (os_can_create _)); [reflexivity|].
    destruct (json_encodable _); cbn [negb fst]; unfold store_put;
      rewrite !list_patients_flat; cbn [flat_map fst];
      rewrite listed_chat_file, flat_map_listed_remove by apply listed_chat_file;
      reflexivity.
  - unfold delete_chat_history. cbv zeta.
    destruct (path_exists _ _ _) as [[|]|]; [|reflexivity|reflexivity].
    destruct (os_can_remove _); [|reflexivity].
    cbn [fst]. unfold store_remove. apply list_patients_remove, listed_chat_file.
Qed.

Lemma store_get_remove_same (p : str) (st : store) :
  store_get (store_remove p st) p = None.
Proof.
  induction st as [|[q c] st IH]; [reflexivity|].
  unfold store_remove in *. cbn [filter fst].
  destruct (str_eqb q p) eqn:E; cbn [negb]; [exact IH|].
  cbn [store_get]. destruct (str_eqb p q) eqn:E'; [|exact IH].
  apply str_eqb_eq in E'. subst q. now rewrite str_eqb_refl in E.
Qed.

Lemma store_get_remove_other (p q : str) (st : store) :
  q <> p -> store_get (store_remove p st) q = store_get st q.
Proof.
  intro Hne. induction st as [|[k c] st IH]; [reflexivity|].
  unfold store_remove in *. cbn [filter fst].
  destruct (str_eqb k p) eqn:E; cbn [negb].
  - apply str_eqb_eq in E. subst k. cbn [store_get].
    destruct (str_eqb q p) eqn:E'; [apply str_eqb_eq in E'; contradiction | exact IH].
  - cbn [store_get]. now rewrite IH.
Qed.

(** X13: after a delete that answers 200, loading the history gives the
    empty history, no other file changed, and a second delete answers
    [No chat history found]. *)
Theorem delete_chat_history_clears (PATIENT_DATA_FOLDER : str)
    (os_stat_error os_can_remove : str -> bool) (st st' : store) (name : str)
    (resp : response) :
  delete_chat_history PATIENT_DATA_FOLDER os_stat_error os_can_remove st name = (st', resp) ->
  status_of resp = 200 ->
  get_chat_history PATIENT_DATA_FOLDER os_stat_error st' name
  = JSONResponse 200 (JObj [(u "patient_name", JStr name);
                            (u "chat_history", JList []);
                            (u "message_count", JInt 0)])
  /\ (forall q, q <> chat_file PATIENT_DATA_FOLDER name -> store_get st' q = store_get st q)
  /\ delete_chat_history PATIENT_DATA_FOLDER os_stat_error os_can_remove st' name
     = (st', JSONResponse 200 (JObj [(u "success", JBool true);
                                     (u "message", JStr (u "No chat history found"))])).
Proof.
  assert (Hg : forall st0,
     path_exists os_stat_error st0 (chat_file PATIENT_DATA_FOLDER name) = Ok false ->
     get_chat_history PATIENT_DATA_FOLDER os_stat_error st0 name
     = JSONResponse 200 (JObj [(u "patient_name", JStr name);
                               (u "chat_history", JList []);
                               (u "message_count", JInt 0)])
     /\ delete_chat_history PATIENT_DATA_FOLDER os_stat_error os_can_remove st0 name
        = (st0, JSONResponse 200 (JObj [(u "success", JBool true);
                                        (u "message", JStr (u "No chat history found"))]))).
  { intros st0 H. unfold get_chat_history, delete_chat_history. cbv zeta.
    now rewrite H. }
  unfold delete_chat_history at 1. cbv zeta.
  destruct (path_exists os_stat_error st (chat_file PATIENT_DATA_FOLDER name))
    as [[|]|] eqn:Hp.
  - destruct (os_can_remove (chat_file PATIENT_DATA_FOLDER name)).
    + intros H _. injection H as <- _.
      assert (He : path_exists os_stat_error
                     (store_remove (chat_file PATIENT_DATA_FOLDER name) st)
                     (chat_file PATIENT_DATA_FOLDER name) = Ok false).
      { unfold path_exists in Hp |- *. rewrite store_get_remove_same.
        destruct (has_nul _); [reflexivity|].
        destruct (os_stat_error _); [discriminate Hp | reflexivity]. }
      destruct (Hg _ He) as [G D]. split; [exact G|]. split; [|exact D].
      intros q Hq. now apply store_get_remove_other.
    + intros H Hs. injection H as _ <-. discriminate Hs.
  - intros H _. injection H as <- _.
    destruct (Hg _ Hp) as [G D]. auto.
  - intros H Hs. injection H as _ <-. discriminate Hs.
Qed.

Lemma chat_file_inj (F a b : str) : chat_file F a = chat_file F b -> a = b.
Proof.
  unfold chat_file. intro H. apply app_inv_head, app_inv_head in H.
  now apply app_inv_tail in H.
Qed.

Lemma patient_file_inj (F a b : str) : patient_file F a = patient_file F b -> a = b.
Proof.
  unfold patient_file. intro H. apply app_inv_head, app_inv_head in H.
  now apply app_inv_tail in H.
Qed.

Lemma store_get_put_other (p q : str) (c : file_content) (st : store) :
  q <> p -> store_get (store_put p c st) q = store_get st q.
Proof.
  intro Hne. unfold store_put. cbn [store_get].
  destruct (str_eqb q p) eqn:E; [apply str_eqb_eq in E; contradiction|].
  now apply store_get_remove_other.
Qed.

(** X14: for names that are single path components (no ['/'], so that
    distinct names are distinct files of the folder), saving [a]'s
    history changes neither the history loaded for another name [b] nor
    the patient data of any such name but [a_chat]. *)
Theorem save_chat_history_frame (PATIENT_DATA_FOLDER : str)
    (os_stat_error os_can_create : str -> bool) (st : store) (now : datetime)
    (a b : str) (hist : list ChatMessage) :
  existsb (Z.eqb 47) a = false ->
  existsb (Z.eqb 47) b = false ->
  a <> b ->
  let st' := fst (save_chat_history PATIENT_DATA_FOLDER os_stat_error os_can_create st now
                    (mkSaveChatRequest a hist)) in
  get_chat_history PATIENT_DATA_FOLDER os_stat_error st' b
  = get_chat_history PATIENT_DATA_FOLDER os_stat_error st b
  /\ (forall q, existsb (Z.eqb 47) q = false -> q <> a ++ u "_chat" ->
        get_patient_data PATIENT_DATA_FOLDER os_stat_error st' q
        = get_patient_data PATIENT_DATA_FOLDER os_stat_error st q).
Proof.
  intros _ _ Hab st'.
  assert (Hst : forall q, q <> chat_file PATIENT_DATA_FOLDER a -> store_get st' q = store_get st q).
  { intros q Hq. subst st'. unfold save_chat_history. cbv zeta. cbn [patient_name].
    destruct (has_nul _); [reflexivity|].
    destruct (os_stat_error _ || negb (os_can_create _)); [reflexivity|].
    destruct (json_encodable _); cbn [negb fst]; now apply store_get_put_other. }
  split.
  - assert (Hq : chat_file PATIENT_DATA_FOLDER b <> chat_file PATIENT_DATA_FOLDER a)
      by (intro E; apply chat_file_inj in E; congruence).
    unfold get_chat_history, path_exists. cbv zeta. now rewrite !Hst.
  - intros q _ Hq.
    assert (Hq' : patient_file PATIENT_DATA_FOLDER q <> chat_file PATIENT_DATA_FOLDER a).
    { rewrite <- patient_file_chat. intro E. apply patient_file_inj in E. contradiction. }
    unfold get_patient_data, load_patient_data, path_exists. cbv zeta. now rewrite !Hst.
Qed.

(** [voice.get("Locale", "")] when it is a string. *)
Definition voice_locale (v : json) : option str :=
  match v with
  | JObj d => match dict_get_default d (u "Locale") (JStr []) with JStr l => Some l | _ => None end
  | _ => None
  end.

(** [locale.startswith(p)] for the voice's locale. *)
Definition voice_has_prefix (p : str) (v : json) : bool :=
  match voice_locale v with Some l => is_prefix p l | None => false end.

Section VoiceProofs.
Variable py_repr : json -> str.

(** The entry listed for a voice. *)
Definition voice_row (v : json) : json :=
  match v with
  | JObj d => voice_entry py_repr d (dict_get_default d (u "Locale") (JStr []))
  | _ => JNull
  end.

Lemma classify_voices_obj (d : dict) (vs english arabic : list json) :
  classify_voices py_repr (JObj d :: vs) english arabic
  = match dict_get_default d (u "Locale") (JStr []) with
    | JStr loc =>
        if is_prefix (u "en-") loc
        then classify_voices py_repr vs
               (english ++ [voice_entry py_repr d (JStr loc)]) arabic
        else if is_prefix (u "ar-") loc
        then classify_voices py_repr vs english
               (arabic ++ [voice_entry py_repr d (JStr loc)])
        else classify_voices py_repr vs english arabic
    | _ => Err AttributeError
    end.
Proof.
  cbn [classify_voices]. destruct (dict_get_default d (u "Locale") (JStr [])); reflexivity.
Qed.

Lemma classify_voices_ok (vs english arabic : list json) :
  (forall v, In v vs -> voice_locale v <> None) ->
  classify_voices py_repr vs english arabic
  = Ok (english ++ map voice_row (filter (voice_has_prefix (u "en-")) vs),
        arabic ++ map voice_row (filter (fun v => negb (voice_has_prefix (u "en-") v)
                                                  && voice_has_prefix (u "ar-") v) vs)).
Proof.
  revert english arabic. induction vs as [|v vs IH]; intros english arabic H.
  - now rewrite !app_nil_r.
  - assert (Hv : voice_locale v <> None) by (apply H; now left).
    assert (Hvs : forall w, In w vs -> voice_locale w <> None) by (intros w Hw; apply H; now right).
    destruct v as [| | | | |d]; try (exfalso; now apply Hv).
    rewrite classify_voices_obj.
    destruct (dict_get_default d (u "Locale") (JStr [])) as [| | |loc| |] eqn:E;
      try (exfalso; apply Hv; cbn [voice_locale]; now rewrite E).
    assert (Hp : forall p, voice_has_prefix p (JObj d) = is_prefix p loc)
      by (intro p; unfold voice_has_prefix, voice_locale; now rewrite E).
    assert (Hr : voice_row (JObj d) = voice_entry py_repr d (JStr loc))
      by (unfold voice_row; now rewrite E).
    cbn [filter]. rewrite !Hp.
    destruct (is_prefix (u "en-") loc); cbn [negb andb map];
      [rewrite Hr, IH by exact Hvs; now rewrite <- !app_assoc|].
    destruct (is_prefix (u "ar-") loc); cbn [map];
      [rewrite Hr|]; rewrite IH by exact Hvs; now rewrite <- ?app_assoc.
Qed.

Lemma classify_voices_err (vs english arabic : list json) :
  (exists v, In v vs /\ voice_locale v = None) ->
  classify_voices py_repr vs english arabic = Err AttributeError.
Proof.
  revert english arabic. induction vs as [|v vs IH]; intros english arabic [w [Hw Hn]];
    [destruct Hw|].
  destruct v as [| | | | |d]; try reflexivity.
  rewrite classify_voices_obj.
  destruct (dict_get_default d (u "Locale") (JStr [])) as [| | |loc| |] eqn:E; try reflexivity.
  assert (Hin : In w vs).
  { destruct Hw as [<-|Hw]; [|exact Hw]. cbn [voice_locale] in Hn. rewrite E in Hn. discriminate. }
  destruct (is_prefix (u "en-") loc); [|destruct (is_prefix (u "ar-") loc)];
    apply IH; now exists w.
Qed.

(** X15: when every voice has a string locale, [/tts/voices] lists the
    [en-] voices as English and the other [ar-] voices as Arabic, in
    order, with their counts; one voice without a string locale (or not a
    dict) makes it answer 500. *)
Theorem get_available_voices_groups (voices : list json) :
  ((forall v, In v voices -> voice_locale v <> None) ->
   let english := map voice_row (filter (voice_has_prefix (u "en-")) voices) in
   let arabic := map voice_row (filter (fun v => negb (voice_has_prefix (u "en-") v)
                                                 && voice_has_prefix (u "ar-") v) voices) in
   get_available_voices py_repr (Ok voices)
   = JSONResponse 200 (JObj [
       (u "default_voices", JObj EDGE_TTS_VOICES);
       (u "available_voices", JObj [(u "english", JList english); (u "arabic", JList arabic)]);
       (u "total_en", JInt (Z.of_nat (List.length english)));
       (u "total_ar", JInt (Z.of_nat (List.length arabic)))]))
  /\ ((exists v, In v voices /\ voice_locale v = None) ->
      get_available_voices py_repr (Ok voices) = error_response 500 (exn_message AttributeError)).
Proof.
  split.
  - intros H english arabic. unfold get_available_voices.
    rewrite classify_voices_ok by exact H. reflexivity.
  - intro H. unfold get_available_voices. now rewrite classify_voices_err.
Qed.
End VoiceProofs.

(* ================================================================== *)
(** * Concrete runs discharging the hypotheses *)

Definition w_langdetect : str -> res str := fun _ => Err LangDetectException.
Definition w_repr : json -> str := fun _ => u "[...]".
Definition w_prompt_en : str := u "You are Dr. HealBot.".
Definition w_prompt_ar : str := u "أنت الدكتور هيل بوت".
Definition w_predict : dict -> res json :=
  fun _ => Ok (JObj [(u "executive_summary",
                      JObj [(u "top_priorities", JList [JStr (u "Lower LDL cholesterol")])])]).
Definition w_patient : dict :=
  [(u "personal_info", JObj [(u "name", JStr (u "Sara")); (u "age", JInt 41)]);
   (u "allergies", JList [JStr (u "penicillin")])].
Definition w_analysis : dict :=
  [(u "executive_summary", JObj [(u "top_priorities", JList [JStr (u "Raise vitamin D")])])].
Definition w_request : ChatRequest :=
  mkChatRequest (u "  I have a fever and headache ") (Some (u "auto"))
    (Some [mkChatMessage (u "user") (u "hi");
           mkChatMessage (u "assistant") (u "Hello, how can I help?")])
    None None None.

Lemma detect_language_spec_witness :
  (existsb is_arabic_char (u "عندي صداع") = true
   /\ detect_language w_langdetect (u "عندي صداع") = u "ar")
  /\ (existsb is_arabic_char (u "ok") = false /\ w_langdetect (u "ok") = Err LangDetectException
      /\ detect_language w_langdetect (u "ok") = u "en").
Proof.
  split.
  - split; [vm_compute; reflexivity|].
    apply (proj1 (proj2 (detect_language_spec w_langdetect (u "عندي صداع")))).
    vm_compute; reflexivity.
  - split; [vm_compute; reflexivity|]. split; [reflexivity|].
    apply (proj2 (proj2 (detect_language_spec w_langdetect (u "ok"))) LangDetectException);
      [vm_compute; reflexivity | reflexivity].
Defined.

Lemma chat_contents_turns_witness :
  exists lang rep contents,
    chat_contents w_langdetect w_repr w_prompt_en w_prompt_ar w_predict w_request
      = Ok (lang, rep, contents)
    /\ lang = chat_language w_langdetect w_request
    /\ exists system_prompt,
         build_system_prompt w_repr w_prompt_en w_prompt_ar w_predict w_request lang
           = Ok (system_prompt, rep)
         /\ contents =
              mkContent (u "user") system_prompt
              :: map history_turn (match chat_history w_request with
                                   | Some h => h | None => [] end)
              ++ [mkContent (u "user") (strip (message w_request))].
Proof.
  do 3 eexists. split; [reflexivity|].
  apply chat_contents_turns. reflexivity.
Defined.

Lemma system_prompt_append_only_witness :
  (exists sp rep,
     build_system_prompt w_repr w_prompt_en w_prompt_ar w_predict
       (with_patient_data w_request w_patient) (u "en") = Ok (sp, rep)
     /\ exists pb bb,
          sp = base_template w_prompt_en w_prompt_ar (u "en") ++ pb ++ bb
          /\ patient_block w_repr (with_patient_data w_request w_patient) (u "en") = Ok pb
          /\ (opt_dict_truthy (patient_data (with_patient_data w_request w_patient)) = false
              -> pb = [])
          /\ rep = report_of w_predict (with_patient_data w_request w_patient)
          /\ biomarker_block w_repr rep (u "en") = Ok bb
          /\ (match rep with Some r => truthy r | None => false end = false -> bb = []))
  /\ (exists sp rep sp' rep',
        build_system_prompt w_repr w_prompt_en w_prompt_ar w_predict w_request (u "en")
          = Ok (sp, rep)
        /\ build_system_prompt w_repr w_prompt_en w_prompt_ar w_predict
             (with_patient_data w_request w_patient) (u "en") = Ok (sp', rep')
        /\ rep' = rep
        /\ exists pb bb, sp = base_template w_prompt_en w_prompt_ar (u "en") ++ bb
                         /\ sp' = base_template w_prompt_en w_prompt_ar (u "en") ++ pb ++ bb)
  /\ (exists sp sp' rep',
        build_system_prompt w_repr w_prompt_en w_prompt_ar w_predict w_request (u "en")
          = Ok (sp, None)
        /\ build_system_prompt w_repr w_prompt_en w_prompt_ar w_predict
             (with_biomarker_analysis w_request w_analysis) (u "en") = Ok (sp', rep')
        /\ exists bb, sp' = sp ++ bb).
Proof.
  destruct (system_prompt_append_only w_repr w_prompt_en w_prompt_ar w_predict)
    as [T1 [T2 T3]].
  split; [|split].
  - do 2 eexists. split; [reflexivity|]. apply T1. reflexivity.
  - do 4 eexists. split; [reflexivity|]. split; [reflexivity|].
    apply (T2 w_request w_patient); reflexivity.
  - do 3 eexists. split; [reflexivity|]. split; [reflexivity|].
    eapply (T3 w_request w_analysis (u "en")); reflexivity.
Defined.

Lemma stt_no_speech_status_witness :
  let env := mkSttEnv true (Ok [26; 69; 223; 163]) (Ok tt)
               (u "/tmp/tmpk3j9x2.webm") (u "/tmp/tmpq81mzd.wav")
               (FfmpegExited 0 true) (Ok (mkWavInfo 1 2 16000))
               (fun _ => Ok (JObj [(u "text", JStr (u "  "))])) in
  strip (u "  ") = []
  /\ snd (speech_to_text env (u "auto") [])
     = JSONResponse 200 (JObj [(u "transcript", JStr []);
                               (u "detected_language", JStr (stt_detected_language (u "auto")));
                               (u "status", JStr (u "no_speech"))]).
Proof.
  intro env. split; [vm_compute; reflexivity|].
  apply (proj1 (stt_no_speech_status env (u "auto") [] [26; 69; 223; 163] true
                  (mkWavInfo 1 2 16000) [(u "text", JStr (u "  "))] (u "  ")
                  eq_refl eq_refl eq_refl eq_refl eq_refl eq_refl eq_refl eq_refl eq_refl)).
  vm_compute; reflexivity.
Defined.

Lemma chat_history_roundtrip_on_success_witness :
  exists st' resp,
    save_chat_history (u "patient_histories") name_too_long (fun _ => true) [] now_one
      (mkSaveChatRequest (u "Sara") hist_one) = (st', resp)
    /\ status_of resp = 200
    /\ get_chat_history (u "patient_histories") name_too_long st' (u "Sara")
       = JSONResponse 200 (saved_transcript (u "Sara") hist_one now_one).
Proof.
  do 2 eexists. split; [reflexivity|]. split; [vm_compute; reflexivity|].
  refine (proj1 (chat_history_roundtrip_on_success (u "patient_histories") name_too_long
                   (fun _ => true) [] _ now_one (u "Sara") hist_one _ _) _);
    [reflexivity | vm_compute; reflexivity].
Defined.

Lemma get_chat_history_missing_witness :
  store_get [] (chat_file (u "patient_histories") (u "Sara")) = None
  /\ get_chat_history (u "patient_histories") name_too_long [] (u "Sara")
     = JSONResponse 200 (JObj [(u "patient_name", JStr (u "Sara"));
                               (u "chat_history", JList []);
                               (u "message_count", JInt 0)]).
Proof.
  split; [reflexivity|].
  apply (proj1 (get_chat_history_missing (u "patient_histories") name_too_long [] (u "Sara")
                  eq_refl)).
  right. vm_compute. reflexivity.
Defined.

Definition w_generate : list Content -> res str := fun _ => Ok (u " Rest and drink fluids. ").

Lemma chat_reported_languages_witness :
  exists body,
    chat w_langdetect w_repr w_prompt_en w_prompt_ar w_predict w_generate w_request
      = JSONResponse 200 body
    /\ exists reply l1 l2 hp hb,
         body = JObj [(u "reply", JStr reply); (u "detected_language", JStr l1);
                      (u "response_language", JStr l2); (u "has_patient_data", JBool hp);
                      (u "has_biomarker_report", JBool hb)]
         /\ (l1 = u "en" \/ l1 = u "ar") /\ (l2 = u "en" \/ l2 = u "ar").
Proof.
  eexists. split; [reflexivity|].
  apply (chat_reported_languages w_langdetect w_repr w_prompt_en w_prompt_ar w_predict
           w_generate w_request). reflexivity.
Defined.

Lemma chat_reply_stripped_witness :
  exists reply rest,
    chat w_langdetect w_repr w_prompt_en w_prompt_ar w_predict w_generate w_request
      = JSONResponse 200 (JObj ((u "reply", JStr reply) :: rest))
    /\ (forall c r, reply = c :: r -> py_isspace c = false)
    /\ (forall r c, reply = r ++ [c] -> py_isspace c = false).
Proof.
  do 2 eexists. split; [reflexivity|].
  eapply (chat_reply_stripped w_langdetect w_repr w_prompt_en w_prompt_ar w_predict
           w_generate w_request). reflexivity.
Defined.

(** Biomarker data whose analysis raises (a validation error). *)
Definition w_bio_data : dict := [(u "ldl", JInt 190)].
Definition w_predict_fails : dict -> res json := fun _ => Err ValidationError.
Definition w_bio_request : ChatRequest :=
  mkChatRequest (u "What do my results mean?") (Some (u "en")) None None
    (Some w_bio_data) None.

Lemma chat_biomarker_failure_ignored_witness :
  biomarker_data w_bio_request = Some w_bio_data
  /\ w_predict_fails w_bio_data = Err ValidationError
  /\ chat w_langdetect w_repr w_prompt_en w_prompt_ar w_predict_fails w_generate w_bio_request
     = chat w_langdetect w_repr w_prompt_en w_prompt_ar w_predict_fails w_generate
         (without_biomarkers w_bio_request).
Proof.
  split; [reflexivity|]. split; [reflexivity|].
  apply (chat_biomarker_failure_ignored w_langdetect w_repr w_prompt_en w_prompt_ar
           w_predict_fails w_generate w_bio_request w_bio_data ValidationError);
    [reflexivity | discriminate | reflexivity | reflexivity].
Defined.

(** A patient record whose [personal_info] is a string. *)
Definition w_bad_patient : dict := [(u "personal_info", JStr (u "Sara"))].
Definition w_bad_request : ChatRequest :=
  mkChatRequest (u "I have a headache") (Some (u "en")) None (Some w_bad_patient) None None.

Lemma chat_patient_record_error_witness :
  format_patient_history w_repr w_bad_patient (chat_language w_langdetect w_bad_request)
    = Err AttributeError
  /\ chat w_langdetect w_repr w_prompt_en w_prompt_ar w_predict w_generate w_bad_request
     = error_response 500 (exn_message AttributeError).
Proof.
  split; [vm_compute; reflexivity|].
  apply (chat_patient_record_error w_langdetect w_repr w_prompt_en w_prompt_ar w_predict
           w_generate w_bad_request w_bad_patient AttributeError);
    [reflexivity | discriminate | vm_compute; reflexivity].
Defined.

(** A record whose vital signs are a list. *)
Definition w_vitals_list : dict := [(u "vital_signs", JList [JInt 72; JInt 120])].

Definition w_vitals_dict : dict := [(u "vital_signs", JObj [(u "heart_rate", JInt 72)])].

Lemma format_patient_history_en_vitals_error_witness :
  exists s,
    format_patient_history w_repr w_vitals_list (u "ar") = Ok s
    /\ format_patient_history w_repr w_vitals_list (u "en") = Err AttributeError
    /\ format_patient_history w_repr w_vitals_dict (u "ar") = Ok s.
Proof.
  eexists. split; [reflexivity|].
  destruct (format_patient_history_en_vitals_error w_repr w_vitals_list w_vitals_dict (u "en") _
              eq_refl eq_refl) as [Hiff Har].
  split.
  - apply Hiff. eexists. split; [reflexivity | intros kvs Hk; discriminate Hk].
  - apply Har; [unfold w_vitals_list; discriminate | unfold w_vitals_dict; discriminate |].
    intros k Hk. cbn [w_vitals_dict w_vitals_list dict_get].
    destruct (str_eqb k (u "vital_signs")) eqn:E; [|reflexivity].
    apply str_eqb_eq in E. contradiction.
Defined.

Definition w_allergy_record : dict :=
  [(u "personal_info", JObj [(u "name", JStr (u "Sara"))]);
   (u "allergies", JList [JStr (u "penicillin"); JStr (u "aspirin")])].

Definition w_allergy_block : str :=
  Eval vm_compute in
    match format_patient_history w_repr w_allergy_record (u "ar") with
    | Ok s => s
    | Err _ => []
    end.

Lemma format_patient_history_lists_items_witness :
  format_patient_history w_repr w_allergy_record (u "ar") = Ok w_allergy_block
  /\ contains w_allergy_block
       ((if str_eqb (u "ar") (u "ar") then u "• " else u "   • ")
        ++ py_format w_repr (JStr (u "aspirin")) ++ NL) = true.
Proof.
  split; [vm_compute; reflexivity|].
  apply (format_patient_history_lists_items w_repr w_allergy_record (u "ar") w_allergy_block
           (u "allergies") [JStr (u "penicillin"); JStr (u "aspirin")] (JStr (u "aspirin"))).
  - right; right; left; reflexivity.
  - vm_compute; reflexivity.
  - right; left; reflexivity.
  - vm_compute; reflexivity.
Defined.

(** A stream with one audio chunk and one metadata chunk. *)
Definition w_stream : str -> str -> res (list TTSChunk) :=
  fun _ _ => Ok [mkTTSChunk (u "audio") [255; 251; 144]; mkTTSChunk (u "WordBoundary") []].
Definition w_tts_request : TTSRequest := mkTTSRequest (u "مرحبا") (Some (u "auto")) None.

Lemma text_to_speech_headers_witness :
  exists buf mt headers,
    text_to_speech w_langdetect w_stream w_tts_request = StreamingResponse buf mt headers
    /\ buf <> [] /\ mt = u "audio/mpeg"
    /\ exists lang v,
         headers = [(u "Content-Disposition", u "inline; filename=speech.mp3");
                    (u "X-Language", lang); (u "X-Voice", v);
                    (u "Cache-Control", u "no-cache")]
         /\ (lang = u "en" \/ lang = u "ar")
         /\ v = match voice w_tts_request with
                | Some ((_ :: _) as custom) => custom
                | _ => default_voice lang
                end
         /\ exists chunks, w_stream (strip (tts_text w_tts_request)) v = Ok chunks
                           /\ buf = audio_bytes chunks.
Proof.
  do 3 eexists. split; [reflexivity|].
  apply (text_to_speech_headers w_langdetect w_stream w_tts_request). reflexivity.
Defined.

Lemma speech_to_text_files_witness :
  wav_name stt_env_hello <> []
  /\ (forall x, In x [u "/tmp/notes.txt"] -> x <> input_name stt_env_hello ->
        x <> wav_name stt_env_hello ->
        In x (fst (speech_to_text stt_env_hello (u "auto") [u "/tmp/notes.txt"])))
  /\ (forall x, In x (fst (speech_to_text stt_env_hello (u "auto") [u "/tmp/notes.txt"])) ->
        In x [u "/tmp/notes.txt"] \/ x = input_name stt_env_hello).
Proof.
  split; [vm_compute; discriminate|].
  apply (speech_to_text_files stt_env_hello (u "auto") [u "/tmp/notes.txt"]).
  vm_compute; discriminate.
Defined.

(** An upload that ffmpeg fails to convert. *)
Definition stt_env_ffmpeg_fails : stt_env :=
  mkSttEnv true (Ok [26; 69; 223; 163]) (Ok tt)
    (u "/tmp/tmpk3j9x2.webm") (u "/tmp/tmpq81mzd.wav")
    (FfmpegExited 1 false) (Ok (mkWavInfo 1 2 16000))
    (fun _ => Ok (JObj [(u "text", JStr (u "hello"))])).

Lemma speech_to_text_failures_witness :
  STT_AVAILABLE stt_env_ffmpeg_fails = true
  /\ snd (speech_to_text stt_env_ffmpeg_fails (u "auto") [])
     = error_response 500 (u "Audio conversion failed").
Proof.
  split; [reflexivity|].
  destruct (speech_to_text_failures stt_env_ffmpeg_fails (u "auto") [] [26; 69; 223; 163]
              eq_refl eq_refl eq_refl) as [H _].
  apply (H 1 false); [reflexivity | discriminate].
Defined.

Lemma chat_transcript_served_as_patient_witness :
  exists st' resp,
    save_chat_history (u "patient_histories") name_too_long (fun _ => true) [] now_one
      (mkSaveChatRequest (u "Sara") hist_one) = (st', resp)
    /\ status_of resp = 200
    /\ get_patient_data (u "patient_histories") name_too_long st' (u "Sara" ++ u "_chat")
       = Ok (JSONResponse 200 (saved_transcript (u "Sara") hist_one now_one)).
Proof.
  do 2 eexists. split; [reflexivity|]. split; [vm_compute; reflexivity|].
  eapply (chat_transcript_served_as_patient (u "patient_histories") name_too_long
            (fun _ => true) []);
    [reflexivity | vm_compute; reflexivity].
Defined.

Lemma delete_chat_history_clears_witness :
  exists st' resp,
    delete_chat_history (u "patient_histories") name_too_long (fun _ => true)
      (fst (save_chat_history (u "patient_histories") name_too_long (fun _ => true) [] now_one
              (mkSaveChatRequest (u "Sara") hist_one))) (u "Sara") = (st', resp)
    /\ status_of resp = 200
    /\ get_chat_history (u "patient_histories") name_too_long st' (u "Sara")
       = JSONResponse 200 (JObj [(u "patient_name", JStr (u "Sara"));
                                 (u "chat_history", JList []);
                                 (u "message_count", JInt 0)])
    /\ (forall q, q <> chat_file (u "patient_histories") (u "Sara") ->
          store_get st' q
          = store_get (fst (save_chat_history (u "patient_histories") name_too_long
                              (fun _ => true) [] now_one
                              (mkSaveChatRequest (u "Sara") hist_one))) q)
    /\ delete_chat_history (u "patient_histories") name_too_long (fun _ => true) st' (u "Sara")
       = (st', JSONResponse 200 (JObj [(u "success", JBool true);
                                       (u "message", JStr (u "No chat history found"))])).
Proof.
  do 2 eexists. split; [reflexivity|]. split; [vm_compute; reflexivity|].
  eapply (delete_chat_history_clears (u "patient_histories") name_too_long (fun _ => true));
    [reflexivity | vm_compute; reflexivity].
Defined.

Lemma save_chat_history_frame_witness :
  existsb (Z.eqb 47) (u "Sara") = false
  /\ existsb (Z.eqb 47) (u "Omar") = false
  /\ u "Sara" <> u "Omar"
  /\ let st' := fst (save_chat_history (u "patient_histories") name_too_long (fun _ => true)
                       [] now_one (mkSaveChatRequest (u "Sara") hist_one)) in
     get_chat_history (u "patient_histories") name_too_long st' (u "Omar")
     = get_chat_history (u "patient_histories") name_too_long [] (u "Omar")
     /\ (forall q, existsb (Z.eqb 47) q = false -> q <> u "Sara" ++ u "_chat" ->
           get_patient_data (u "patient_histories") name_too_long st' q
           = get_patient_data (u "patient_histories") name_too_long [] q).
Proof.
  split; [reflexivity|]. split; [reflexivity|]. split; [vm_compute; discriminate|].
  apply (save_chat_history_frame (u "patient_histories") name_too_long (fun _ => true) []
           now_one); [reflexivity | reflexivity | vm_compute; discriminate].
Defined.

(** Three voices of the edge-tts catalogue. *)
Definition w_voices : list json :=
  [JObj [(u "ShortName", JStr (u "en-US-AriaNeural")); (u "Locale", JStr (u "en-US"));
         (u "Gender", JStr (u "Female"))];
   JObj [(u "ShortName", JStr (u "fr-FR-DeniseNeural")); (u "Locale", JStr (u "fr-FR"));
         (u "Gender", JStr (u "Female"))];
   JObj [(u "ShortName", JStr (u "ar-EG-SalmaNeural")); (u "Locale", JStr (u "ar-EG"));
         (u "Gender", JStr (u "Female")); (u "LocalName", JStr (u "سلمى"))]].

Lemma get_available_voices_groups_witness :
  (forall v, In v w_voices -> voice_locale v <> None)
  /\ get_available_voices w_repr (Ok w_voices)
     = JSONResponse 200 (JObj [
         (u "default_voices", JObj EDGE_TTS_VOICES);
         (u "available_voices",
           JObj [(u "english", JList (map (voice_row w_repr)
                                        (filter (voice_has_prefix (u "en-")) w_voices)));
                 (u "arabic", JList (map (voice_row w_repr)
                                       (filter (fun v => negb (voice_has_prefix (u "en-") v)
                                                         && voice_has_prefix (u "ar-") v)
                                          w_voices)))]);
         (u "total_en", JInt 1); (u "total_ar", JInt 1)]).
Proof.
  assert (H : forall v, In v w_voices -> voice_locale v <> None).
  { intros v [<-|[<-|[<-|[]]]]; vm_compute; discriminate. }
  split; [exact H|].
  apply (proj1 (get_available_voices_groups w_repr w_voices) H).
Defined.
